(** * Cost reporting script: aggregation, report assembly, renderers

    A shallow embedding of [scripts/cost-reporting.py].

    Conventions of the embedding.
    - A Python [float] cost is a rational ([Q]).  Sums, quotients and
      comparisons are exact; equalities that the script can only meet up to
      rounding are stated with [==] on [Q].
    - A response of the billing service is a dictionary with optional
      members: a record of [option] fields.  Subscripting an absent member
      raises [KeyError], as in the script.
    - A [dict] with string keys is an association list in insertion order.
    - Exceptions are values of [exn]; a computation that may raise returns
      [res].  Code that talks to the outside (clock, billing service,
      console, files) runs in the monad [M] over [state]. *)

From Stdlib Require Import ZArith QArith Qround Qabs Lqa Lia Bool List.
From Stdlib Require Import Ascii String DecimalString.
From Stdlib Require Import Sorted Permutation.
Import ListNotations.

Local Open Scope string_scope.
Local Open Scope Z_scope.
Local Open Scope Q_scope.

(** ** Exceptions and fallible results *)

Inductive exn : Type :=
| KeyError (key : string)
| ValueError (msg : string)
| TypeError (msg : string)
| OverflowError (msg : string)
| ZeroDivisionError
| ImportError (msg : string)
| ClientError (msg : string)
| NoCredentialsError
| OtherException (msg : string)
| KeyboardInterrupt
| SystemExit (code : Z).

Inductive res (A : Type) : Type :=
| Ok (a : A)
| Raise (e : exn).

Arguments Ok {A} a.
Arguments Raise {A} e.

Definition rbind {A B} (r : res A) (k : A -> res B) : res B :=
  match r with
  | Ok a => k a
  | Raise e => Raise e
  end.

Declare Scope res_scope.
Delimit Scope res_scope with res.
Notation "'let?' x ':=' r 'in' k" := (rbind r (fun x => k))
  (at level 10, x pattern, r at level 100, k at level 200) : res_scope.
Local Open Scope res_scope.

(** [d[key]] on a dictionary member that may be absent. *)
Definition subscript {A} (member : option A) (key : string) : res A :=
  match member with
  | Some a => Ok a
  | None => Raise (KeyError key)
  end.

(** A [for] loop whose body may raise: the first exception leaves the loop. *)
Fixpoint for_each {A S} (body : S -> A -> res S) (xs : list A) (s : S)
  : res S :=
  match xs with
  | [] => Ok s
  | x :: xs' => let? s' := body s x in for_each body xs' s'
  end.

(** ** [float(str)]

    Decimal literals: surrounding white space, an optional sign, digits with
    an optional point, an optional exponent.  The literals [inf], [nan] and
    digit groups with underscores, which Python accepts too, have no rational
    value and are a [ValueError] here. *)

Definition is_space (c : ascii) : bool :=
  match nat_of_ascii c with
  | 9%nat | 10%nat | 11%nat | 12%nat | 13%nat | 32%nat => true
  | _ => false
  end.

Definition digit_of (c : ascii) : option Z :=
  let n := Z.of_nat (nat_of_ascii c) in
  if ((48 <=? n) && (n <=? 57))%Z then Some (n - 48)%Z else None.

Fixpoint lstrip (s : string) : string :=
  match s with
  | String c s' => if is_space c then lstrip s' else s
  | EmptyString => s
  end.

Fixpoint rev_string (acc s : string) : string :=
  match s with
  | EmptyString => acc
  | String c s' => rev_string (String c acc) s'
  end.

Definition strip (s : string) : string :=
  rev_string "" (lstrip (rev_string "" (lstrip s))).

(** Reads a run of digits: the value accumulated, the number of digits read
    and the rest of the string. *)
Fixpoint read_digits (acc : Z) (count : nat) (s : string)
  : Z * nat * string :=
  match s with
  | String c s' =>
      match digit_of c with
      | Some d => read_digits (10 * acc + d)%Z (S count) s'
      | None => (acc, count, s)
      end
  | EmptyString => (acc, count, s)
  end.

Definition read_sign (s : string) : bool * string :=
  match s with
  | String "-" s' => (true, s')
  | String "+" s' => (false, s')
  | _ => (false, s)
  end.

(** [m * 10^e] as a rational. *)
Definition scale10 (m e : Z) : Q :=
  if (0 <=? e)%Z then inject_Z (m * 10 ^ e)
  else Qmake m (Z.to_pos (10 ^ (- e))).

Definition read_exponent (s : string) : option Z :=
  match s with
  | EmptyString => Some 0%Z
  | String c s' =>
      if (Ascii.eqb c "e" || Ascii.eqb c "E")%bool then
        let '(neg, s1) := read_sign s' in
        let '(e, n, rest) := read_digits 0 0 s1 in
        match n, rest with
        | S _, EmptyString => Some (if neg then (- e)%Z else e)
        | _, _ => None
        end
      else None
  end.

Definition float_of_string (s : string) : res Q :=
  let bad := Raise (ValueError ("could not convert string to float: " ++ s)) in
  let '(neg, s1) := read_sign (strip s) in
  let '(ip, ni, s2) := read_digits 0 0 s1 in
  let '(m, nf, s3) :=
    match s2 with
    | String "." s' =>
        let '(m, nf, s3) := read_digits ip 0 s' in (m, nf, s3)
    | _ => (ip, 0%nat, s2)
    end in
  match (ni + nf)%nat with
  | O => bad
  | S _ =>
      match read_exponent s3 with
      | Some e =>
          let q := scale10 m (e - Z.of_nat nf) in
          Ok (if neg then - q else q)
      | None => bad
      end
  end.

(** ** Dictionaries of accumulated costs

    [defaultdict(float)]: a key seen for the first time is entered at the end
    with [0.0 + cost]; a key already present keeps its place. *)

Definition cost_dict : Type := list (string * Q).

Fixpoint add_cost (key : string) (cost : Q) (d : cost_dict) : cost_dict :=
  match d with
  | [] => [(key, 0 + cost)]
  | (k, v) :: d' =>
      if String.eqb k key then (k, v + cost) :: d'
      else (k, v) :: add_cost key cost d'
  end.

Definition keys (d : cost_dict) : list string := map fst d.
Definition values (d : cost_dict) : list Q := map snd d.

(** [sum(xs)], starting from [0] and adding from the left. *)
Definition sum (xs : list Q) : Q := fold_left Qplus xs 0.



(** ** Responses of the cost query

    The members the script reads.  [NextPageToken] stands for the members it
    never reads; it only decides whether the dictionary is empty. *)

Record DateInterval : Type := {
  Start : option string;
  End_ : option string
}.

Record MetricValue : Type := {
  Amount : option string;
  Unit : option string
}.

Record MetricsDict : Type := {
  BlendedCost : option MetricValue;
  UsageQuantity : option MetricValue
}.

Record Group : Type := {
  Keys : option (list string);
  Metrics : option MetricsDict
}.

Record ResultByTime : Type := {
  TimePeriod : option DateInterval;
  Groups : option (list Group)
}.

Record CostData : Type := {
  ResultsByTime : option (list ResultByTime);
  NextPageToken : option string
}.

(** The [{}] returned after a [ClientError]. *)
Definition empty_cost_data : CostData :=
  {| ResultsByTime := None; NextPageToken := None |}.

Definition cost_data_is_empty (cost_data : CostData) : bool :=
  match ResultsByTime cost_data, NextPageToken cost_data with
  | None, None => true
  | _, _ => false
  end.

(** ** [process_cost_data] *)

Record daily_cost : Type := {
  date : string;
  cost : Q
}.

Module Processed.
Record t : Type := {
  total_cost : Q;
  by_environment : cost_dict;
  by_service : cost_dict;
  by_aws_service : cost_dict;
  daily_costs : list daily_cost;
  monthly_trend : list daily_cost
}.
End Processed.

Definition initial_processed_data : Processed.t :=
  {| Processed.total_cost := 0;
     Processed.by_environment := [];
     Processed.by_service := [];
     Processed.by_aws_service := [];
     Processed.daily_costs := [];
     Processed.monthly_trend := [] |}.

Fixpoint enumerate_from {A} (i : nat) (xs : list A) : list (nat * A) :=
  match xs with
  | [] => []
  | x :: xs' => (i, x) :: enumerate_from (S i) xs'
  end.

Definition enumerate {A} (xs : list A) : list (nat * A) := enumerate_from 0 xs.

(** Truth value of a string: non-empty. *)
Definition truthy (s : string) : bool :=
  match s with
  | EmptyString => false
  | String _ _ => true
  end.

(** One turn of [for i, key in enumerate(keys)] on the three names. *)
Definition assign_key (names : string * string * string) (ik : nat * string)
  : string * string * string :=
  let '(environment, service, aws_service) := names in
  let '(i, key) := ik in
  if ((i =? 0)%nat && truthy key)%bool then (key, service, aws_service)
  else if ((i =? 1)%nat && truthy key)%bool then (environment, key, aws_service)
  else if ((i =? 2)%nat && truthy key)%bool then (environment, service, key)
  else names.

Definition extract_keys (ks : list string) : string * string * string :=
  fold_left assign_key (enumerate ks) ("unknown", "unknown", "unknown").

(** [float(group['Metrics']['BlendedCost']['Amount'])] *)
Definition group_cost (group : Group) : res Q :=
  let? metrics := subscript (Metrics group) "Metrics" in
  let? blended := subscript (BlendedCost metrics) "BlendedCost" in
  let? amount := subscript (Amount blended) "Amount" in
  float_of_string amount.

(** Body of [for group in result['Groups']]; the state is the dictionary
    under construction and [period_total]. *)
Definition process_group (st : Processed.t * Q) (group : Group)
  : res (Processed.t * Q) :=
  let '(pd, period_total) := st in
  let? ks := subscript (Keys group) "Keys" in
  let? cost := group_cost group in
  let '(environment, service, aws_service) := extract_keys ks in
  Ok ({| Processed.total_cost := Processed.total_cost pd;
         Processed.by_environment :=
           add_cost environment cost (Processed.by_environment pd);
         Processed.by_service :=
           add_cost service cost (Processed.by_service pd);
         Processed.by_aws_service :=
           add_cost aws_service cost (Processed.by_aws_service pd);
         Processed.daily_costs := Processed.daily_costs pd;
         Processed.monthly_trend := Processed.monthly_trend pd |},
      period_total + cost).

(** Body of [for result in cost_data['ResultsByTime']]. *)
Definition process_result (pd : Processed.t) (result : ResultByTime)
  : res Processed.t :=
  let? time_period := subscript (TimePeriod result) "TimePeriod" in
  let? period_start := subscript (Start time_period) "Start" in
  let? groups := subscript (Groups result) "Groups" in
  let? st := for_each process_group groups (pd, 0) in
  let '(pd', period_total) := st in
  Ok {| Processed.total_cost := Processed.total_cost pd' + period_total;
        Processed.by_environment := Processed.by_environment pd';
        Processed.by_service := Processed.by_service pd';
        Processed.by_aws_service := Processed.by_aws_service pd';
        Processed.daily_costs :=
          (Processed.daily_costs pd'
             ++ [{| date := period_start; cost := period_total |}])%list;
        Processed.monthly_trend := Processed.monthly_trend pd' |}.

Definition process_cost_data (cost_data : CostData) : res Processed.t :=
  if cost_data_is_empty cost_data then Ok initial_processed_data
  else
    match ResultsByTime cost_data with
    | None => Ok initial_processed_data
    | Some results => for_each process_result results initial_processed_data
    end.


(** ** Text: decimal numerals, padding, [format] of a float *)

Definition str_of_N (n : N) : string := NilZero.string_of_uint (N.to_uint n).

(** [str(n)] of an integer. *)
Definition str_of_Z (z : Z) : string :=
  if (z <? 0)%Z then "-" ++ str_of_N (Z.to_N (- z)) else str_of_N (Z.to_N z).

Fixpoint repeat_char (c : ascii) (n : nat) : string :=
  match n with
  | O => ""
  | S n' => String c (repeat_char c n')
  end.

(** Number of characters of a UTF-8 string: the bytes that do not continue a
    character. *)
Fixpoint len (s : string) : nat :=
  match s with
  | EmptyString => O
  | String c s' =>
      let n := nat_of_ascii c in
      if ((128 <=? n) && (n <? 192))%nat then len s' else S (len s')
  end.

(** [s.rjust(width, c)] and [s.ljust(width)]. *)
Definition rjust (width : nat) (c : ascii) (s : string) : string :=
  repeat_char c (width - len s) ++ s.

Definition ljust (width : nat) (s : string) : string :=
  s ++ repeat_char " " (width - len s).

(** Nearest integer of a non-negative rational, ties to even. *)
Definition round_half_even (q : Q) : Z :=
  let n := Qfloor q in
  match Qcompare (q - inject_Z n) (1 # 2) with
  | Lt => n
  | Gt => (n + 1)%Z
  | Eq => if Z.even n then n else (n + 1)%Z
  end.

(** [format(q, '{width}.{prec}f')], with [plus] for the [+] flag.  The digits
    are those of the rational itself, rounded to [prec] places, ties to
    even. *)
Definition format_f (plus : bool) (width prec : nat) (q : Q) : string :=
  let p := (10 ^ Z.of_nat prec)%Z in
  let n := round_half_even (Qabs q * inject_Z p) in
  let sign :=
    match Qcompare q 0 with
    | Lt => "-"
    | _ => if plus then "+" else ""
    end in
  let body :=
    match prec with
    | O => str_of_Z n
    | S _ =>
        str_of_Z (n / p) ++ "."
          ++ rjust prec "0" (str_of_Z (n mod p))
    end in
  rjust width " " (sign ++ body).

(** ** Dates

    A [datetime] is a day number ([date.toordinal], day 1 is 0001-01-01) and
    a time of day. *)

Record datetime : Type := {
  ordinal : Z;
  hour : Z;
  minute : Z;
  second : Z;
  microsecond : Z
}.

Definition min_ordinal : Z := 1.
Definition max_ordinal : Z := 3652059.
Definition max_delta_days : Z := 999999999.

(** Year, month and day of a day number (proleptic Gregorian calendar). *)
Definition civil_of_ordinal (n : Z) : Z * Z * Z :=
  let z := (n + 305)%Z in
  let era := (z / 146097)%Z in
  let doe := (z - era * 146097)%Z in
  let yoe := ((doe - doe / 1460 + doe / 36524 - doe / 146096) / 365)%Z in
  let doy := (doe - (365 * yoe + yoe / 4 - yoe / 100))%Z in
  let mp := ((5 * doy + 2) / 153)%Z in
  let d := (doy - (153 * mp + 2) / 5 + 1)%Z in
  let m := (if (mp <? 10)%Z then mp + 3 else mp - 9)%Z in
  let y := (yoe + era * 400 + (if (m <=? 2)%Z then 1 else 0))%Z in
  (y, m, d).

Definition pad0 (width : nat) (z : Z) : string := rjust width "0" (str_of_Z z).

(** [strftime('%Y-%m-%d')], the year written with four digits. *)
Definition strftime_ymd (t : datetime) : string :=
  let '(y, m, d) := civil_of_ordinal (ordinal t) in
  pad0 4 y ++ "-" ++ pad0 2 m ++ "-" ++ pad0 2 d.

(** [strftime('%Y%m%d_%H%M%S')] *)
Definition strftime_stamp (t : datetime) : string :=
  let '(y, m, d) := civil_of_ordinal (ordinal t) in
  pad0 4 y ++ pad0 2 m ++ pad0 2 d ++ "_"
    ++ pad0 2 (hour t) ++ pad0 2 (minute t) ++ pad0 2 (second t).

(** [isoformat()] *)
Definition isoformat (t : datetime) : string :=
  strftime_ymd t ++ "T" ++ pad0 2 (hour t) ++ ":" ++ pad0 2 (minute t)
    ++ ":" ++ pad0 2 (second t)
    ++ (if (microsecond t =? 0)%Z then "" else "." ++ pad0 6 (microsecond t)).

(** [t + timedelta(days=n)]; [t - timedelta(days=n)] is [add_days t (- n)]. *)
Definition add_days (t : datetime) (n : Z) : res datetime :=
  if (Z.abs n >? max_delta_days)%Z then
    Raise (OverflowError "days out of range for timedelta")
  else
    let o := (ordinal t + n)%Z in
    if ((min_ordinal <=? o) && (o <=? max_ordinal))%Z then
      Ok {| ordinal := o; hour := hour t; minute := minute t;
            second := second t; microsecond := microsecond t |}
    else Raise (OverflowError "date value out of range").


(** ** Responses of the recommendation and forecast queries *)

(** A nested description the script passes through unread. *)
Definition detail : Type := list (string * string).

Module RawRec.
Record t : Type := {
  AccountId : option string;
  CurrentInstance : option detail;
  RightsizingType : option string;
  ModifyRecommendationDetail : option detail;
  TerminateRecommendationDetail : option detail;
  EstimatedMonthlySavings : option string
}.
End RawRec.

Record RecommendationData : Type := {
  RightsizingRecommendations : option (list RawRec.t);
  Configuration : option detail
}.

Definition empty_recommendation_data : RecommendationData :=
  {| RightsizingRecommendations := None; Configuration := None |}.

Module RawForecast.
Record entry : Type := {
  TimePeriod : option DateInterval;
  MeanValue : option string
}.
Record t : Type := {
  ForecastResultsByTime : option (list entry);
  Total : option MetricValue
}.
End RawForecast.

Definition empty_forecast_data : RawForecast.t :=
  {| RawForecast.ForecastResultsByTime := None; RawForecast.Total := None |}.

(** ** The report *)

Module Rec.
Record t : Type := {
  account_id : string;
  current_instance : detail;
  rightsizing_type : string;
  modify_recommendation : detail;
  terminate_recommendation : detail;
  estimated_monthly_savings : string
}.
End Rec.

Module Fc.
Record period : Type := {
  period_start : string;
  period_end : string;
  forecasted_cost : Q
}.
Record t : Type := {
  total_forecasted_cost : Q;
  forecast_by_period : list period
}.
End Fc.

Record Metadata : Type := {
  report_date : string;
  period_start : string;
  period_end : string;
  environment : string;
  account_id : string
}.

Record Summary : Type := {
  total_cost : Q;
  average_daily_cost : Q;
  projected_monthly_cost : Q
}.

Record CostBreakdown : Type := {
  by_environment : cost_dict;
  by_service : cost_dict;
  by_aws_service : cost_dict
}.

Record Trends : Type := {
  daily_costs : list daily_cost
}.

(** [forecast] is [None] for the empty dictionary [{}]. *)
Record Report : Type := {
  metadata : Metadata;
  summary : Summary;
  cost_breakdown : CostBreakdown;
  trends : Trends;
  recommendations : list Rec.t;
  forecast : option Fc.t
}.

(** ** Normalizers *)

(** [d.get(key, default)] *)
Definition get_default {A} (member : option A) (default : A) : A :=
  match member with
  | Some a => a
  | None => default
  end.

Definition process_recommendation (rec : RawRec.t) : Rec.t :=
  {| Rec.account_id := get_default (RawRec.AccountId rec) "";
     Rec.current_instance := get_default (RawRec.CurrentInstance rec) [];
     Rec.rightsizing_type := get_default (RawRec.RightsizingType rec) "";
     Rec.modify_recommendation :=
       get_default (RawRec.ModifyRecommendationDetail rec) [];
     Rec.terminate_recommendation :=
       get_default (RawRec.TerminateRecommendationDetail rec) [];
     Rec.estimated_monthly_savings :=
       get_default (RawRec.EstimatedMonthlySavings rec) "0" |}.

Definition recommendation_data_is_empty (r : RecommendationData) : bool :=
  match RightsizingRecommendations r, Configuration r with
  | None, None => true
  | _, _ => false
  end.

Definition _process_recommendations (recommendations : RecommendationData)
  : list Rec.t :=
  if recommendation_data_is_empty recommendations then []
  else
    match RightsizingRecommendations recommendations with
    | None => []
    | Some recs => map process_recommendation recs
    end.

Definition forecast_data_is_empty (f : RawForecast.t) : bool :=
  match RawForecast.ForecastResultsByTime f, RawForecast.Total f with
  | None, None => true
  | _, _ => false
  end.

(** Body of [for result in forecast_data['ForecastResultsByTime']]; the state
    is [forecast_results] and [total_forecast]. *)
Definition process_forecast_entry (st : list Fc.period * Q)
    (result : RawForecast.entry) : res (list Fc.period * Q) :=
  let '(forecast_results, total_forecast) := st in
  let? period := subscript (RawForecast.TimePeriod result) "TimePeriod" in
  let? mean := subscript (RawForecast.MeanValue result) "MeanValue" in
  let? mean_value := float_of_string mean in
  let? p_start := subscript (Start period) "Start" in
  let? p_end := subscript (End_ period) "End" in
  Ok ((forecast_results
         ++ [{| Fc.period_start := p_start; Fc.period_end := p_end;
                Fc.forecasted_cost := mean_value |}])%list,
      total_forecast + mean_value).

Definition _process_forecast (forecast_data : RawForecast.t)
  : res (option Fc.t) :=
  if forecast_data_is_empty forecast_data then Ok None
  else
    match RawForecast.ForecastResultsByTime forecast_data with
    | None => Ok None
    | Some results =>
        let? st := for_each process_forecast_entry results ([], 0) in
        let '(forecast_results, total_forecast) := st in
        Ok (Some {| Fc.total_forecasted_cost := total_forecast;
                    Fc.forecast_by_period := forecast_results |})
    end.

(** ** The outside: clock, services, libraries, console and files *)

Inductive api_call : Type :=
| Sts_get_caller_identity
| Ce_get_cost_and_usage (start_date end_date granularity : string)
    (environment_tag : option string)
| Ce_get_rightsizing_recommendation
| Ce_get_usage_forecast (start_date end_date : string).

Inductive cell : Type :=
| CStr (s : string)
| CNum (q : Q).

Inductive chart : Type :=
| Pie (labels : list string) (sizes : list Q) (title : string)
| Bar (labels : list string) (heights : list Q) (title : string)
| Plot (dates : list datetime) (costs : list Q) (title : string)
| Barh (labels : list string) (widths : list Q) (title : string).

Inductive file_content : Type :=
| JsonFile (report : Report)
| CsvFile (rows : list (list cell))
| PngFile (figure : chart).

(** What the run cannot decide: the readings of the clock in the order they
    are taken, the answers of the services, and the library calls that may
    fail for reasons of their own. *)
Record world : Type := {
  clock : nat -> datetime;
  boto3_client : string -> res unit;
  sts_get_caller_identity : res string;
  ce_get_cost_and_usage :
    string -> string -> string -> option string -> res CostData;
  ce_get_rightsizing_recommendation : res RecommendationData;
  ce_get_usage_forecast : string -> string -> res RawForecast.t;
  strptime_ymd : string -> res datetime;
  plt_style_use : string -> res unit;
  plt_draw : chart -> res unit;
  open_w : string -> res unit
}.

(** [report_obj] is the dictionary the variable [report] of [main] refers to,
    once assembled; the renderers receive a reference to it. *)
Record state : Type := {
  ticks : nat;
  calls : list api_call;
  stdout : list string;
  files : list (string * file_content);
  report_obj : option Report
}.

Definition initial_state : state :=
  {| ticks := 0; calls := []; stdout := []; files := []; report_obj := None |}.

Definition M (A : Type) : Type := state -> res A * state.

Definition ret {A} (a : A) : M A := fun s => (Ok a, s).

Definition bind {A B} (m : M A) (k : A -> M B) : M B :=
  fun s =>
    match m s with
    | (Ok a, s') => k a s'
    | (Raise e, s') => (Raise e, s')
    end.

Definition raise {A} (e : exn) : M A := fun s => (Raise e, s).

Definition lift {A} (r : res A) : M A := fun s => (r, s).

Declare Scope m_scope.
Delimit Scope m_scope with M.
Notation "x <- m ;; k" := (bind m (fun x => k))
  (at level 61, m at next level, right associativity) : m_scope.
Notation "m ;; k" := (bind m (fun _ => k))
  (at level 61, right associativity) : m_scope.
Local Open Scope m_scope.

(** [try: body except ...]: [handler] answers [None] for an exception that no
    clause catches. *)
Definition try_except {A} (body : M A) (handler : exn -> option (M A))
  : M A :=
  fun s =>
    match body s with
    | (Ok a, s') => (Ok a, s')
    | (Raise e, s') =>
        match handler e with
        | Some h => h s'
        | None => (Raise e, s')
        end
    end.

(** Instances of [Exception]: all but the two that derive from
    [BaseException] directly. *)
Definition is_Exception (e : exn) : bool :=
  match e with
  | KeyboardInterrupt | SystemExit _ => false
  | _ => true
  end.

Definition str_of_exn (e : exn) : string :=
  match e with
  | KeyError k => "'" ++ k ++ "'"
  | ValueError m | TypeError m | OverflowError m | ImportError m
  | ClientError m | OtherException m => m
  | ZeroDivisionError => "float division by zero"
  | NoCredentialsError => "Unable to locate credentials"
  | KeyboardInterrupt => ""
  | SystemExit c => str_of_Z c
  end.

Definition now (w : world) : M datetime :=
  fun s =>
    (Ok (clock w (ticks s)),
     {| ticks := S (ticks s); calls := calls s; stdout := stdout s;
        files := files s; report_obj := report_obj s |}).

Definition log_call (c : api_call) : M unit :=
  fun s =>
    (Ok tt,
     {| ticks := ticks s; calls := (calls s ++ [c])%list; stdout := stdout s;
        files := files s; report_obj := report_obj s |}).

(** [print(line)] *)
Definition print (line : string) : M unit :=
  fun s =>
    (Ok tt,
     {| ticks := ticks s; calls := calls s; stdout := (stdout s ++ [line])%list;
        files := files s; report_obj := report_obj s |}).

(** A file opened with mode ['w'] replaces the file of that name. *)
Fixpoint put_file (name : string) (c : file_content)
    (fs : list (string * file_content)) : list (string * file_content) :=
  match fs with
  | [] => [(name, c)]
  | (n, c') :: fs' =>
      if String.eqb n name then (n, c) :: fs' else (n, c') :: put_file name c fs'
  end.

Definition write_file (w : world) (name : string) (c : file_content)
  : M unit :=
  lift (open_w w name) ;;
  fun s =>
    (Ok tt,
     {| ticks := ticks s; calls := calls s; stdout := stdout s;
        files := put_file name c (files s); report_obj := report_obj s |}).

(** Binding [report] to the dictionary just assembled. *)
Definition set_report (r : Report) : M unit :=
  fun s =>
    (Ok tt,
     {| ticks := ticks s; calls := calls s; stdout := stdout s;
        files := files s; report_obj := Some r |}).

(** Following the reference a renderer was given. *)
Definition get_report : M Report :=
  fun s =>
    match report_obj s with
    | Some r => (Ok r, s)
    | None => (Raise (TypeError "'NoneType' object is not subscriptable"), s)
    end.

(** A [for] loop in [M]. *)
Fixpoint for_M {A} (xs : list A) (body : A -> M unit) : M unit :=
  match xs with
  | [] => ret tt
  | x :: xs' => body x ;; for_M xs' body
  end.

(** ** [CostReporter] *)

Record CostReporter : Type := {
  self_environment : string;
  self_account_id : string
}.

(** [sys.exit(code)] *)
Definition sys_exit {A} (code : Z) : M A := raise (SystemExit code).

Definition CostReporter_init (w : world) (env : string) : M CostReporter :=
  try_except
    (lift (boto3_client w "ce") ;;
     lift (boto3_client w "cloudwatch") ;;
     lift (boto3_client w "sts") ;;
     log_call Sts_get_caller_identity ;;
     account <- lift (sts_get_caller_identity w) ;;
     print ("📊 Connected to AWS Account: " ++ account) ;;
     ret {| self_environment := env; self_account_id := account |})
    (fun e =>
       match e with
       | NoCredentialsError =>
           Some (print "❌ AWS credentials not found. Please configure AWS CLI or set environment variables." ;;
                 sys_exit 1)
       | _ =>
           if is_Exception e then
             Some (print ("❌ Error initializing AWS clients: " ++ str_of_exn e) ;;
                   sys_exit 1)
           else None
       end).

(** The environment tag the cost query filters on besides the project:
    none when [self.environment] is ['all']. *)
Definition environment_tag_of (self : CostReporter) : option string :=
  if String.eqb (self_environment self) "all" then None
  else Some (self_environment self).

Definition get_cost_and_usage (w : world) (self : CostReporter)
    (start_date end_date granularity : string) : M CostData :=
  let environment_tag := environment_tag_of self in
  try_except
    (log_call (Ce_get_cost_and_usage start_date end_date granularity
                 environment_tag) ;;
     lift (ce_get_cost_and_usage w start_date end_date granularity
             environment_tag))
    (fun e =>
       match e with
       | ClientError _ =>
           Some (print ("❌ Error retrieving cost data: " ++ str_of_exn e) ;;
                 ret empty_cost_data)
       | _ => None
       end).

Definition get_rightsizing_recommendations (w : world)
  : M RecommendationData :=
  try_except
    (log_call Ce_get_rightsizing_recommendation ;;
     lift (ce_get_rightsizing_recommendation w))
    (fun e =>
       match e with
       | ClientError _ =>
           Some (print ("⚠️  Rightsizing recommendations not available: "
                          ++ str_of_exn e) ;;
                 ret empty_recommendation_data)
       | _ => None
       end).

Definition get_usage_forecast (w : world) (start_date end_date : string)
  : M RawForecast.t :=
  try_except
    (log_call (Ce_get_usage_forecast start_date end_date) ;;
     lift (ce_get_usage_forecast w start_date end_date))
    (fun e =>
       match e with
       | ClientError _ =>
           Some (print ("⚠️  Usage forecast not available: " ++ str_of_exn e) ;;
                 ret empty_forecast_data)
       | _ => None
       end).

(** [x / days] of a float by an [int]. *)
Definition div_days (x : Q) (days : Z) : res Q :=
  if (days =? 0)%Z then Raise ZeroDivisionError else Ok (x / inject_Z days).

Definition generate_cost_allocation_report (w : world) (self : CostReporter)
    (days : Z) : M Report :=
  t1 <- now w ;;
  let end_date := strftime_ymd t1 in
  t2 <- now w ;;
  t2' <- lift (add_days t2 (- days)) ;;
  let start_date := strftime_ymd t2' in
  print ("📈 Generating cost allocation report for " ++ str_of_Z days
           ++ " days (" ++ start_date ++ " to " ++ end_date ++ ")") ;;
  cost_data <- get_cost_and_usage w self start_date end_date "DAILY" ;;
  processed_data <- lift (process_cost_data cost_data) ;;
  recommendations <- get_rightsizing_recommendations w ;;
  t3 <- now w ;;
  let forecast_start := strftime_ymd t3 in
  t4 <- now w ;;
  t4' <- lift (add_days t4 30) ;;
  let forecast_end := strftime_ymd t4' in
  forecast_data <- get_usage_forecast w forecast_start forecast_end ;;
  t5 <- now w ;;
  average <- lift (div_days (Processed.total_cost processed_data) days) ;;
  average' <- lift (div_days (Processed.total_cost processed_data) days) ;;
  fc <- lift (_process_forecast forecast_data) ;;
  ret {| metadata :=
           {| report_date := isoformat t5;
              period_start := start_date;
              period_end := end_date;
              environment := self_environment self;
              account_id := self_account_id self |};
         summary :=
           {| total_cost := Processed.total_cost processed_data;
              average_daily_cost := average;
              projected_monthly_cost := average' * 30 |};
         cost_breakdown :=
           {| by_environment := Processed.by_environment processed_data;
              by_service := Processed.by_service processed_data;
              by_aws_service := Processed.by_aws_service processed_data |};
         trends := {| daily_costs := Processed.daily_costs processed_data |};
         recommendations := _process_recommendations recommendations;
         forecast := fc |}.

(** ** Renderers and exporters *)

(** [a > b] on floats. *)
Definition Qgtb (a b : Q) : bool := negb (Qle_bool a b).

(** [sorted(d.items(), key=lambda x: x[1], reverse=True)]: by cost,
    descending; entries of equal cost keep their order. *)
Fixpoint insert_desc (x : string * Q) (l : list (string * Q))
  : list (string * Q) :=
  match l with
  | [] => [x]
  | y :: l' => if Qgtb (snd y) (snd x) then y :: insert_desc x l' else x :: l
  end.

Definition sorted_desc (d : cost_dict) : list (string * Q) :=
  fold_right insert_desc [] d.

(** [(cost / total * 100) if total > 0 else 0] *)
Definition percentage (cost total : Q) : Q :=
  if Qgtb total 0 then cost / total * 100 else 0.

Definition nl : string := String (ascii_of_nat 10) "".

Definition breakdown_line (name_width : nat) (total : Q) (entry : string * Q)
  : string :=
  let '(name, cost) := entry in
  "  " ++ ljust name_width name ++ " $" ++ format_f false 8 2 cost
    ++ " (" ++ format_f false 5 1 (percentage cost total) ++ "%)".

(** [sum(float(rec.get('estimated_monthly_savings', 0)) for rec in recs)] *)
Definition total_savings (recs : list Rec.t) : res Q :=
  for_each
    (fun acc rec =>
       let? x := float_of_string (Rec.estimated_monthly_savings rec) in
       Ok (acc + x))
    recs 0.

Definition print_summary_report : M unit :=
  report <- get_report ;;
  print (nl ++ repeat_char "=" 80) ;;
  print "🏢 AI VALIDATION PLATFORM - COST REPORT" ;;
  print (repeat_char "=" 80) ;;
  let md := metadata report in
  print ("📅 Report Date: " ++ report_date md) ;;
  print ("🗓️  Period: " ++ period_start md ++ " to " ++ period_end md) ;;
  print ("🌍 Environment: " ++ environment md) ;;
  print ("🏦 Account ID: " ++ account_id md) ;;
  print (nl ++ "📊 COST SUMMARY") ;;
  print (repeat_char "-" 40) ;;
  let sm := summary report in
  print ("💰 Total Cost: $" ++ format_f false 0 2 (total_cost sm)) ;;
  print ("📈 Average Daily Cost: $"
           ++ format_f false 0 2 (average_daily_cost sm)) ;;
  print ("📅 Projected Monthly Cost: $"
           ++ format_f false 0 2 (projected_monthly_cost sm)) ;;
  print (nl ++ "🏷️  COST BY ENVIRONMENT") ;;
  print (repeat_char "-" 40) ;;
  for_M (sorted_desc (by_environment (cost_breakdown report)))
    (fun entry => print (breakdown_line 12 (total_cost sm) entry)) ;;
  print (nl ++ "🔧 COST BY SERVICE") ;;
  print (repeat_char "-" 40) ;;
  for_M (sorted_desc (by_service (cost_breakdown report)))
    (fun entry => print (breakdown_line 12 (total_cost sm) entry)) ;;
  print (nl ++ "☁️  TOP AWS SERVICES") ;;
  print (repeat_char "-" 40) ;;
  let aws_services :=
    firstn 5 (sorted_desc (by_aws_service (cost_breakdown report))) in
  for_M aws_services
    (fun entry => print (breakdown_line 20 (total_cost sm) entry)) ;;
  match recommendations report with
  | [] => ret tt
  | _ :: _ =>
      print (nl ++ "💡 RIGHTSIZING RECOMMENDATIONS") ;;
      print (repeat_char "-" 40) ;;
      savings <- lift (total_savings (recommendations report)) ;;
      print ("  Potential Monthly Savings: $" ++ format_f false 0 2 savings) ;;
      print ("  Number of Recommendations: "
               ++ str_of_Z (Z.of_nat (List.length (recommendations report))))
  end ;;
  match forecast report with
  | None => ret tt
  | Some fc =>
      print (nl ++ "🔮 30-DAY FORECAST") ;;
      print (repeat_char "-" 40) ;;
      let forecast_cost := Fc.total_forecasted_cost fc in
      print ("  Forecasted Cost (30 days): $"
               ++ format_f false 0 2 forecast_cost) ;;
      let current_monthly := projected_monthly_cost sm in
      if Qgtb current_monthly 0 then
        let change := (forecast_cost - current_monthly) / current_monthly * 100 in
        let trend :=
          if Qgtb change 0 then "📈"
          else if Qgtb 0 change then "📉" else "➡️" in
        print ("  Change from Current Trend: " ++ trend ++ " "
                 ++ format_f true 0 1 change ++ "%")
      else ret tt
  end ;;
  print (nl ++ repeat_char "=" 80).

Definition blank_row : list cell := [CStr ""; CStr ""; CStr ""; CStr ""].

Definition label_row (label : string) : list cell :=
  [CStr label; CStr ""; CStr ""; CStr ""].

Definition value_row (name : string) (q : Q) : list cell :=
  [CStr name; CNum q; CStr ""; CStr ""].

Definition csv_rows (report : Report) : list (list cell) :=
  ([label_row "Summary";
    value_row "Total Cost" (total_cost (summary report));
    value_row "Average Daily Cost" (average_daily_cost (summary report));
    value_row "Projected Monthly Cost"
      (projected_monthly_cost (summary report));
    blank_row;
    label_row "Cost by Environment"]
   ++ map (fun e => value_row (fst e) (snd e))
        (by_environment (cost_breakdown report))
   ++ [blank_row; label_row "Cost by Service"]
   ++ map (fun e => value_row (fst e) (snd e))
        (by_service (cost_breakdown report))
   ++ [blank_row;
       label_row "Daily Costs";
       [CStr "Date"; CStr "Cost"; CStr ""; CStr ""]]
   ++ map (fun d => value_row (date d) (cost d))
        (daily_costs (trends report)))%list.

Definition export_to_csv (w : world) (filename : string) : M string :=
  report <- get_report ;;
  let rows := csv_rows report in
  write_file w filename
    (CsvFile ([CStr "Category"; CStr "Value/Name"; CStr "Cost"; CStr "Notes"]
                :: rows)) ;;
  ret filename.

Definition export_to_json (w : world) (filename : string) : M string :=
  report <- get_report ;;
  write_file w filename (JsonFile report) ;;
  ret filename.

(** [plt.figure ... plt.savefig(filename) ... plt.close()] for one chart. *)
Definition save_chart (w : world) (filename : string) (c : chart) : M unit :=
  lift (plt_draw w c) ;;
  write_file w filename (PngFile c).

(** A list comprehension whose element expression may raise. *)
Fixpoint map_res {A B} (f : A -> res B) (xs : list A) : res (list B) :=
  match xs with
  | [] => Ok []
  | x :: xs' =>
      let? y := f x in
      let? ys := map_res f xs' in
      Ok (y :: ys)
  end.

Definition is_nil {A} (l : list A) : bool :=
  match l with
  | [] => true
  | _ :: _ => false
  end.

Definition generate_visualizations (w : world) (output_dir : string)
  : M (list string) :=
  report <- get_report ;;
  let generated_files : list string := [] in
  lift (plt_style_use w "seaborn-v0_8") ;;
  generated_files <-
    (let env_data := by_environment (cost_breakdown report) in
     if is_nil env_data then ret generated_files
     else
       let filename := output_dir ++ "/cost_by_environment.png" in
       save_chart w filename
         (Pie (keys env_data) (values env_data)
            ("Cost Distribution by Environment" ++ nl ++ "Total: $"
               ++ format_f false 0 2 (total_cost (summary report)))) ;;
       ret (generated_files ++ [filename])%list) ;;
  generated_files <-
    (let service_data := by_service (cost_breakdown report) in
     if is_nil service_data then ret generated_files
     else
       let filename := output_dir ++ "/cost_by_service.png" in
       save_chart w filename
         (Bar (keys service_data) (values service_data)
            "Cost Distribution by Service") ;;
       ret (generated_files ++ [filename])%list) ;;
  generated_files <-
    (let trend_data := daily_costs (trends report) in
     if is_nil trend_data then ret generated_files
     else
       dates <- lift (map_res (fun item => strptime_ymd w (date item))
                        trend_data) ;;
       let costs := map cost trend_data in
       let filename := output_dir ++ "/daily_cost_trend.png" in
       save_chart w filename (Plot dates costs "Daily Cost Trend") ;;
       ret (generated_files ++ [filename])%list) ;;
  generated_files <-
    (let aws_service_data := by_aws_service (cost_breakdown report) in
     if is_nil aws_service_data then ret generated_files
     else
       let sorted_services := firstn 10 (sorted_desc aws_service_data) in
       let filename := output_dir ++ "/cost_by_aws_service.png" in
       save_chart w filename
         (Barh (keys sorted_services) (values sorted_services)
            "Top 10 AWS Services by Cost") ;;
       ret (generated_files ++ [filename])%list) ;;
  ret generated_files.

(** ** [main] *)

Inductive environment_choice : Type := Dev | Staging | Prod | All.

Definition environment_name (e : environment_choice) : string :=
  match e with
  | Dev => "dev"
  | Staging => "staging"
  | Prod => "prod"
  | All => "all"
  end.

Inductive format_choice : Type := Json | Csv | Both.

Record Args : Type := {
  args_environment : environment_choice;
  args_days : Z;
  args_output : string;
  args_format : format_choice;
  args_charts : bool;
  args_quiet : bool
}.

Definition wants_json (f : format_choice) : bool :=
  match f with
  | Json | Both => true
  | Csv => false
  end.

Definition wants_csv (f : format_choice) : bool :=
  match f with
  | Csv | Both => true
  | Json => false
  end.

Definition output_name (args : Args) (timestamp extension : string) : string :=
  args_output args ++ "_" ++ environment_name (args_environment args) ++ "_"
    ++ timestamp ++ extension.

Definition main (w : world) (args : Args) : M unit :=
  try_except
    (reporter <- CostReporter_init w (environment_name (args_environment args)) ;;
     report <- generate_cost_allocation_report w reporter (args_days args) ;;
     set_report report ;;
     (if args_quiet args then ret tt else print_summary_report) ;;
     t <- now w ;;
     let timestamp := strftime_stamp t in
     let generated_files : list string := [] in
     generated_files <-
       (if wants_json (args_format args) then
          let json_file := output_name args timestamp ".json" in
          export_to_json w json_file ;;
          print ("📄 JSON report saved: " ++ json_file) ;;
          ret (generated_files ++ [json_file])%list
        else ret generated_files) ;;
     generated_files <-
       (if wants_csv (args_format args) then
          let csv_file := output_name args timestamp ".csv" in
          export_to_csv w csv_file ;;
          print ("📊 CSV report saved: " ++ csv_file) ;;
          ret (generated_files ++ [csv_file])%list
        else ret generated_files) ;;
     generated_files <-
       (if args_charts args then
          try_except
            (chart_files <- generate_visualizations w "." ;;
             print ("📈 Generated "
                      ++ str_of_Z (Z.of_nat (List.length chart_files))
                      ++ " visualization charts") ;;
             ret (generated_files ++ chart_files)%list)
            (fun e =>
               match e with
               | ImportError _ =>
                   Some (print "⚠️  Visualization libraries not available. Install matplotlib and seaborn for charts." ;;
                         ret generated_files)
               | _ =>
                   if is_Exception e then
                     Some (print ("⚠️  Error generating charts: "
                                    ++ str_of_exn e) ;;
                           ret generated_files)
                   else None
               end)
        else ret generated_files) ;;
     print (nl ++ "✅ Cost report generation completed successfully!") ;;
     print ("📁 Generated "
              ++ str_of_Z (Z.of_nat (List.length generated_files))
              ++ " output files"))
    (fun e =>
       match e with
       | KeyboardInterrupt =>
           Some (print (nl ++ "⏹️  Report generation cancelled by user") ;;
                 sys_exit 1)
       | _ =>
           if is_Exception e then
             Some (print ("❌ Error generating cost report: " ++ str_of_exn e) ;;
                   sys_exit 1)
           else None
       end).

(** ** Sample inputs *)

Definition group_of (ks : list string) (amount : string) : Group :=
  {| Keys := Some ks;
     Metrics :=
       Some {| BlendedCost := Some {| Amount := Some amount; Unit := Some "USD" |};
               UsageQuantity := None |} |}.

Definition bucket_of (day : string) (groups : list Group) : ResultByTime :=
  {| TimePeriod := Some {| Start := Some day; End_ := None |};
     Groups := Some groups |}.

Definition cost_data_of (buckets : list ResultByTime) : CostData :=
  {| ResultsByTime := Some buckets; NextPageToken := None |}.

(** Three days of one environment, as in the example of the specification. *)
Definition three_days : CostData :=
  cost_data_of
    [bucket_of "2026-11-01" [group_of ["prod"; "api"; "Amazon EC2"] "10"];
     bucket_of "2026-11-02" [group_of ["prod"; "api"; "Amazon EC2"] "20"];
     bucket_of "2026-11-03" [group_of ["prod"; ""; "Amazon S3"; "extra"] "30"]].

(** A day on which a refund exceeds the charges. *)
Definition refund_day : CostData :=
  cost_data_of [bucket_of "2026-11-01" [group_of ["prod"; "api"; "Tax"] "-10"]].

Definition sample_forecast : RawForecast.t :=
  {| RawForecast.ForecastResultsByTime :=
       Some [{| RawForecast.TimePeriod :=
                  Some {| Start := Some "2026-11-04"; End_ := Some "2026-12-01" |};
                RawForecast.MeanValue := Some "412.5" |};
             {| RawForecast.TimePeriod :=
                  Some {| Start := Some "2026-12-01"; End_ := Some "2026-12-04" |};
                RawForecast.MeanValue := Some "37.5" |}];
     RawForecast.Total := None |}.

(** A forecast whose only period carries no mean value. *)
Definition forecast_without_mean : RawForecast.t :=
  {| RawForecast.ForecastResultsByTime :=
       Some [{| RawForecast.TimePeriod :=
                  Some {| Start := Some "2026-11-04"; End_ := Some "2026-12-04" |};
                RawForecast.MeanValue := None |}];
     RawForecast.Total := None |}.

Definition noon : datetime :=
  {| ordinal := 739924; hour := 12; minute := 30; second := 15;
     microsecond := 0 |}.

Definition sample_world (cost_data : CostData) : world :=
  {| clock := fun _ => noon;
     boto3_client := fun _ => Ok tt;
     sts_get_caller_identity := Ok "123456789012";
     ce_get_cost_and_usage := fun _ _ _ _ => Ok cost_data;
     ce_get_rightsizing_recommendation := Raise (ClientError "AccessDeniedException");
     ce_get_usage_forecast := fun _ _ => Ok sample_forecast;
     strptime_ymd := fun _ => Ok noon;
     plt_style_use := fun _ => Ok tt;
     plt_draw := fun _ => Ok tt;
     open_w := fun _ => Ok tt |}.

Definition sample_args (days : Z) : Args :=
  {| args_environment := Prod; args_days := days; args_output := "cost_report";
     args_format := Both; args_charts := true; args_quiet := false |}.

(** * Predicates of the statements, expected results *)


Definition three_days_processed : Processed.t :=
  {| Processed.total_cost := 60;
     Processed.by_environment := [("prod", 60)];
     Processed.by_service := [("api", 30); ("unknown", 30)];
     Processed.by_aws_service := [("Amazon EC2", 30); ("Amazon S3", 30)];
     Processed.daily_costs :=
       [{| date := "2026-11-01"; cost := 10 |};
        {| date := "2026-11-02"; cost := 20 |};
        {| date := "2026-11-03"; cost := 30 |}];
     Processed.monthly_trend := [] |}.

Definition nonneg (q : Q) : Prop := 0 <= q.

(** The amounts of the rows of a result, in the order the aggregator reads
    them. *)
Definition group_costs (groups : list Group) : list Q :=
  flat_map (fun g => match group_cost g with Ok c => [c] | Raise _ => [] end)
    groups.

Definition row_costs (cost_data : CostData) : list Q :=
  match ResultsByTime cost_data with
  | None => []
  | Some results =>
      flat_map
        (fun r =>
           match Groups r with
           | None => []
           | Some groups => group_costs groups
           end)
        results
  end.

Definition unique_keys (pd : Processed.t) : Prop :=
  NoDup (keys (Processed.by_environment pd))
  /\ NoDup (keys (Processed.by_service pd))
  /\ NoDup (keys (Processed.by_aws_service pd)).

Definition nonneg_values (pd : Processed.t) : Prop :=
  Forall nonneg (values (Processed.by_environment pd))
  /\ Forall nonneg (values (Processed.by_service pd))
  /\ Forall nonneg (values (Processed.by_aws_service pd)).

(** The name a row contributes at position [i], in the words of the
    specification: the key component there, or ["unknown"] when the component
    is absent or empty. *)
Definition key_or_unknown (ks : list string) (i : nat) : string :=
  match nth_error ks i with
  | Some k => if truthy k then k else "unknown"
  | None => "unknown"
  end.

(** Period [p] is what the normalizer makes of entry [e]: the start and end
    of its time period and its mean value read as a decimal. *)
Definition normalizes (e : RawForecast.entry) (p : Fc.period) : Prop :=
  exists period mean,
    RawForecast.TimePeriod e = Some period
    /\ Start period = Some (Fc.period_start p)
    /\ End_ period = Some (Fc.period_end p)
    /\ RawForecast.MeanValue e = Some mean
    /\ float_of_string mean = Ok (Fc.forecasted_cost p).

Definition well_formed_entry (e : RawForecast.entry) : Prop :=
  exists p, normalizes e p.

Definition sample_forecast_normalized : Fc.t :=
  {| Fc.total_forecasted_cost := 0 + (4125 # 10) + (375 # 10);
     Fc.forecast_by_period :=
       [{| Fc.period_start := "2026-11-04"; Fc.period_end := "2026-12-01";
           Fc.forecasted_cost := 4125 # 10 |};
        {| Fc.period_start := "2026-12-01"; Fc.period_end := "2026-12-04";
           Fc.forecasted_cost := 375 # 10 |}] |}.

(** [R] relates the state before a computation to the state after it; a
    computation respects [R] when every run of it does, whether it returns or
    raises. *)
Definition respects (R : state -> state -> Prop) {A} (m : M A) : Prop :=
  forall s, R s (snd (m s)).

Definition same_report (s s' : state) : Prop := report_obj s' = report_obj s.

Definition sample_reporter : CostReporter :=
  {| self_environment := "prod"; self_account_id := "123456789012" |}.

Definition three_days_report : Report :=
  {| metadata :=
       {| report_date := "2026-11-04T12:30:15";
          period_start := "2026-11-01";
          period_end := "2026-11-04";
          environment := "prod";
          account_id := "123456789012" |};
     summary :=
       {| total_cost := 60;
          average_daily_cost := 60 # 3;
          projected_monthly_cost := 1800 # 3 |};
     cost_breakdown :=
       {| by_environment := [("prod", 60)];
          by_service := [("api", 30); ("unknown", 30)];
          by_aws_service := [("Amazon EC2", 30); ("Amazon S3", 30)] |};
     trends :=
       {| daily_costs :=
            [{| date := "2026-11-01"; cost := 10 |};
             {| date := "2026-11-02"; cost := 20 |};
             {| date := "2026-11-03"; cost := 30 |}] |};
     recommendations := [];
     forecast := Some sample_forecast_normalized |}.



(** A report of a period in which every row cost nothing. *)
Definition zero_cost_report : Report :=
  {| metadata :=
       {| report_date := "2026-11-04T12:30:15";
          period_start := "2026-10-05";
          period_end := "2026-11-04";
          environment := "prod";
          account_id := "123456789012" |};
     summary :=
       {| total_cost := 0; average_daily_cost := 0;
          projected_monthly_cost := 0 |};
     cost_breakdown :=
       {| by_environment := [("prod", 0)];
          by_service := [("api", 0); ("unknown", 0)];
          by_aws_service := [("Amazon EC2", 0)] |};
     trends := {| daily_costs := [{| date := "2026-11-03"; cost := 0 |}] |};
     recommendations := [];
     forecast := None |}.

Definition holding (r : Report) : state :=
  {| ticks := 0; calls := []; stdout := []; files := []; report_obj := Some r |}.


Definition chart_names : list string :=
  ["./cost_by_environment.png"; "./cost_by_service.png";
   "./daily_cost_trend.png"; "./cost_by_aws_service.png"].

(** The names [main] may write under. *)
Definition run_file (args : Args) (name : string) : Prop :=
  (exists t, name = output_name args (strftime_stamp t) ".json")
  \/ (exists t, name = output_name args (strftime_stamp t) ".csv")
  \/ In name chart_names.

Definition files_within (args : Args) (s s' : state) : Prop :=
  forall name,
    In name (map fst (files s')) ->
    In name (map fst (files s)) \/ run_file args name.

(** ** Rows, names and amounts of a result *)

(** [d.get(key, 0.0)] *)
Fixpoint amount_of (d : cost_dict) (key : string) : Q :=
  match d with
  | [] => 0
  | (k, v) :: d' => if String.eqb k key then v else amount_of d' key
  end.

(** The keys and the amount of a grouped row the aggregator can read. *)
Definition group_row (g : Group) : option (list string * Q) :=
  match Keys g, group_cost g with
  | Some ks, Ok c => Some (ks, c)
  | _, _ => None
  end.

Definition rows_of_groups (groups : list Group) : list (list string * Q) :=
  flat_map (fun g => match group_row g with Some r => [r] | None => [] end)
    groups.

Definition rows_of_buckets (results : list ResultByTime)
  : list (list string * Q) :=
  flat_map
    (fun r =>
       match Groups r with
       | Some groups => rows_of_groups groups
       | None => []
       end)
    results.

(** All rows of a result, bucket after bucket. *)
Definition rows_of (cost_data : CostData) : list (list string * Q) :=
  match ResultsByTime cost_data with
  | Some results => rows_of_buckets results
  | None => []
  end.

(** The names the rows carry at key position [i], row after row. *)
Definition names_at (i : nat) (rows : list (list string * Q)) : list string :=
  map (fun row => key_or_unknown (fst row) i) rows.

(** The amounts of the rows that carry [name] at key position [i]. *)
Definition costs_under (i : nat) (name : string)
    (rows : list (list string * Q)) : list Q :=
  map snd
    (filter (fun row => String.eqb (key_or_unknown (fst row) i) name) rows).

(** The distinct elements of a list, each at the place of its first
    occurrence. *)
Definition first_seen (xs : list string) : list string :=
  fold_left
    (fun seen x => if existsb (String.eqb x) seen then seen else seen ++ [x])%list
    xs [].

(** Dictionary [d] is the tally of [rows] at key position [i]: it holds each
    name once, in the order of first occurrence, with the sum of the amounts
    of its rows. *)
Definition tally_of (i : nat) (rows : list (list string * Q))
    (d : cost_dict) : Prop :=
  keys d = first_seen (names_at i rows)
  /\ forall name, amount_of d name == sum (costs_under i name rows).

Definition tallies (rows : list (list string * Q)) (pd : Processed.t) : Prop :=
  tally_of 0 rows (Processed.by_environment pd)
  /\ tally_of 1 rows (Processed.by_service pd)
  /\ tally_of 2 rows (Processed.by_aws_service pd).



(** Entry [d] of the daily series is what bucket [r] gives: its start date
    and the sum of the amounts of its rows. *)
Definition day_of_bucket (r : ResultByTime) (d : daily_cost) : Prop :=
  exists period groups,
    TimePeriod r = Some period /\ Start period = Some (date d)
    /\ Groups r = Some groups
    /\ cost d = sum (map snd (rows_of_groups groups)).

(** A world in which every billing query is refused. *)
Definition refusing_world : world :=
  {| clock := fun _ => noon;
     boto3_client := fun _ => Ok tt;
     sts_get_caller_identity := Ok "123456789012";
     ce_get_cost_and_usage :=
       fun _ _ _ _ => Raise (ClientError "AccessDeniedException");
     ce_get_rightsizing_recommendation :=
       Raise (ClientError "AccessDeniedException");
     ce_get_usage_forecast :=
       fun _ _ => Raise (ClientError "AccessDeniedException");
     strptime_ymd := fun _ => Ok noon;
     plt_style_use := fun _ => Ok tt;
     plt_draw := fun _ => Ok tt;
     open_w := fun _ => Ok tt |}.

(** The first two steps of [main]: the reporter is made and asked for the
    report. *)
Definition report_of_run (w : world) (args : Args) : M Report :=
  reporter <- CostReporter_init w (environment_name (args_environment args)) ;;
  generate_cost_allocation_report w reporter (args_days args).

(** The status [main] leaves with after exception [e] has reached its
    handlers. *)
Definition exit_status_after (e : exn) : Z :=
  match e with
  | SystemExit code => code
  | _ => 1%Z
  end.

Definition same_files (s s' : state) : Prop := files s' = files s.

(** The first row of the tabular export. *)
Definition csv_header : list cell :=
  [CStr "Category"; CStr "Value/Name"; CStr "Cost"; CStr "Notes"].


(** The names a run with these arguments may write under: the JSON file when
    the format asks for it, the CSV file likewise, the charts when they are
    requested. *)
Definition file_of_run (args : Args) (name : string) : Prop :=
  (wants_json (args_format args) = true
   /\ exists t, name = output_name args (strftime_stamp t) ".json")
  \/ (wants_csv (args_format args) = true
      /\ exists t, name = output_name args (strftime_stamp t) ".csv")
  \/ (args_charts args = true /\ In name chart_names).

Definition files_among (allowed : string -> Prop) (s s' : state) : Prop :=
  forall name,
    In name (map fst (files s')) ->
    In name (map fst (files s)) \/ allowed name.

(** No file name is lost between [s] and [s']. *)
Definition files_kept (s s' : state) : Prop :=
  forall name, In name (map fst (files s)) -> In name (map fst (files s')).

(** The chart names the generator returns for a report: one per source of
    data that is not empty, in the order the charts are drawn. *)
Definition charts_of (output_dir : string) (r : Report) : list string :=
  ((if is_nil (by_environment (cost_breakdown r)) then []
    else [(output_dir ++ "/cost_by_environment.png")%string])
   ++ (if is_nil (by_service (cost_breakdown r)) then []
       else [(output_dir ++ "/cost_by_service.png")%string])
   ++ (if is_nil (daily_costs (trends r)) then []
       else [(output_dir ++ "/daily_cost_trend.png")%string])
   ++ (if is_nil (by_aws_service (cost_breakdown r)) then []
       else [(output_dir ++ "/cost_by_aws_service.png")%string]))%list.

(** The arguments with the [--charts] flag set to [b]. *)
Definition with_charts (b : bool) (args : Args) : Args :=
  {| args_environment := args_environment args;
     args_days := args_days args;
     args_output := args_output args;
     args_format := args_format args;
     args_charts := b;
     args_quiet := args_quiet args |}.

(** The plotting library, the date parser and the opening of files fail, when
    they fail, with instances of [Exception]. *)
Definition libraries_raise_exceptions (w : world) : Prop :=
  (forall name e, plt_style_use w name = Raise e -> is_Exception e = true)
  /\ (forall c e, plt_draw w c = Raise e -> is_Exception e = true)
  /\ (forall d e, strptime_ymd w d = Raise e -> is_Exception e = true)
  /\ (forall name e, open_w w name = Raise e -> is_Exception e = true).

(** Every exception [m] can raise satisfies [P]. *)
Definition raises_only (P : exn -> Prop) {A} (m : M A) : Prop :=
  forall s e s', m s = (Raise e, s') -> P e.

(** [m] returns from every state. *)
Definition always_returns {A} (m : M A) : Prop :=
  forall s, exists a s', m s = (Ok a, s').

(** A world in which no chart can be drawn. *)
Definition no_plots_world : world :=
  {| clock := fun _ => noon;
     boto3_client := fun _ => Ok tt;
     sts_get_caller_identity := Ok "123456789012";
     ce_get_cost_and_usage := fun _ _ _ _ => Ok three_days;
     ce_get_rightsizing_recommendation := Ok empty_recommendation_data;
     ce_get_usage_forecast := fun _ _ => Ok sample_forecast;
     strptime_ymd := fun _ => Ok noon;
     plt_style_use := fun _ => Ok tt;
     plt_draw := fun _ => Raise (OtherException "no display");
     open_w := fun _ => Ok tt |}.

(** * Properties *)

(** ** Loops and sums *)

Lemma rbind_Ok {A B} (r : res A) (k : A -> res B) (b : B) :
  rbind r k = Ok b -> exists a, r = Ok a /\ k a = Ok b.
Proof.
  destruct r as [a | e]; simpl; intros H.
  - exists a. split; [reflexivity | exact H].
  - discriminate H.
Qed.

(** A property kept by every successful turn of a loop holds when the loop
    ends normally. *)
Lemma for_each_invariant {A S} (P : S -> Prop) (body : S -> A -> res S)
    (xs : list A) :
  (forall s x s', In x xs -> P s -> body s x = Ok s' -> P s') ->
  forall s s', P s -> for_each body xs s = Ok s' -> P s'.
Proof.
  induction xs as [| x xs IH]; simpl; intros Hstep s s' Hs Hrun.
  - injection Hrun as <-. exact Hs.
  - apply rbind_Ok in Hrun. destruct Hrun as (s1 & Hx & Hrest).
    apply (IH (fun s0 y s0' Hy => Hstep s0 y s0' (or_intror Hy)) s1 s').
    + apply (Hstep s x s1); auto.
    + exact Hrest.
Qed.

Lemma fold_left_Qplus_acc (xs : list Q) (a : Q) :
  fold_left Qplus xs a == a + fold_left Qplus xs 0.
Proof.
  revert a. induction xs as [| x xs IH]; intros a; simpl.
  - ring.
  - rewrite (IH (a + x)), (IH (0 + x)). ring.
Qed.

Lemma sum_nil : sum [] == 0.
Proof. reflexivity. Qed.

Lemma sum_cons (x : Q) (xs : list Q) : sum (x :: xs) == x + sum xs.
Proof.
  unfold sum. simpl. rewrite fold_left_Qplus_acc. ring.
Qed.

Lemma sum_app (xs ys : list Q) : sum (xs ++ ys) == sum xs + sum ys.
Proof.
  induction xs as [| x xs IH]; simpl.
  - rewrite sum_nil. ring.
  - rewrite !sum_cons, IH. ring.
Qed.


(** ** The aggregator keeps its totals in step *)

Lemma process_group_Ok (pd : Processed.t) (pending : Q) (g : Group)
    (st' : Processed.t * Q) :
  process_group (pd, pending) g = Ok st' ->
  exists ks c,
    Keys g = Some ks /\ group_cost g = Ok c /\
    st' =
      ({| Processed.total_cost := Processed.total_cost pd;
          Processed.by_environment :=
            add_cost (fst (fst (extract_keys ks))) c
              (Processed.by_environment pd);
          Processed.by_service :=
            add_cost (snd (fst (extract_keys ks))) c (Processed.by_service pd);
          Processed.by_aws_service :=
            add_cost (snd (extract_keys ks)) c (Processed.by_aws_service pd);
          Processed.daily_costs := Processed.daily_costs pd;
          Processed.monthly_trend := Processed.monthly_trend pd |},
       pending + c).
Proof.
  unfold process_group. intros H.
  apply rbind_Ok in H. destruct H as (ks & Hks & H).
  apply rbind_Ok in H. destruct H as (c & Hc & H).
  exists ks, c. destruct (Keys g) as [ks0 |]; [| discriminate Hks].
  injection Hks as ->. split; [reflexivity | split; [exact Hc |]].
  destruct (extract_keys ks) as [[e sv] a]. injection H as <-. reflexivity.
Qed.


Lemma process_result_Ok (pd : Processed.t) (r : ResultByTime)
    (pd' : Processed.t) :
  process_result pd r = Ok pd' ->
  exists period groups pd1 subtotal,
    TimePeriod r = Some period /\ Groups r = Some groups /\
    for_each process_group groups (pd, 0) = Ok (pd1, subtotal) /\
    Processed.total_cost pd' = Processed.total_cost pd1 + subtotal /\
    Processed.by_environment pd' = Processed.by_environment pd1 /\
    Processed.by_service pd' = Processed.by_service pd1 /\
    Processed.by_aws_service pd' = Processed.by_aws_service pd1 /\
    exists day,
      Start period = Some day /\
      Processed.daily_costs pd' =
        (Processed.daily_costs pd1 ++ [{| date := day; cost := subtotal |}])%list.
Proof.
  unfold process_result. intros H.
  apply rbind_Ok in H. destruct H as (period & Hp & H).
  apply rbind_Ok in H. destruct H as (day & Hday & H).
  apply rbind_Ok in H. destruct H as (groups & Hg & H).
  apply rbind_Ok in H. destruct H as ([pd1 subtotal] & Hrun & H).
  injection H as <-. simpl.
  destruct (TimePeriod r) as [p |]; [| discriminate Hp]. injection Hp as ->.
  destruct (Groups r) as [gs |]; [| discriminate Hg]. injection Hg as ->.
  destruct (Start period) as [d |] eqn:Hs; [| discriminate Hday].
  injection Hday as ->.
  exists period, groups, pd1, subtotal. repeat split; try assumption.
  exists day. split; [exact Hs | reflexivity].
Qed.





Lemma three_days_run : process_cost_data three_days = Ok three_days_processed.
Proof. vm_compute. reflexivity. Defined.


(** ** Empty input *)

(** C3: a result without [ResultsByTime], or with no time bucket, is
    aggregated without an exception to a zero total, three empty mappings and
    an empty daily series. *)
Theorem empty_result_aggregates_to_zero (cost_data : CostData) :
  ResultsByTime cost_data = None \/ ResultsByTime cost_data = Some [] ->
  process_cost_data cost_data =
    Ok {| Processed.total_cost := 0;
          Processed.by_environment := [];
          Processed.by_service := [];
          Processed.by_aws_service := [];
          Processed.daily_costs := [];
          Processed.monthly_trend := [] |}.
Proof.
  unfold process_cost_data. intros [H | H]; rewrite H.
  - destruct (cost_data_is_empty cost_data); reflexivity.
  - destruct (cost_data_is_empty cost_data); reflexivity.
Qed.

Lemma empty_result_aggregates_to_zero_witness :
  (ResultsByTime empty_cost_data = None
   \/ ResultsByTime empty_cost_data = Some [])
  /\ process_cost_data empty_cost_data =
       Ok {| Processed.total_cost := 0;
             Processed.by_environment := [];
             Processed.by_service := [];
             Processed.by_aws_service := [];
             Processed.daily_costs := [];
             Processed.monthly_trend := [] |}.
Proof.
  split.
  - left. reflexivity.
  - apply (empty_result_aggregates_to_zero empty_cost_data).
    left. reflexivity.
Defined.

(** ** Keys and values of the breakdown *)

Lemma In_keys_add_cost (key : string) (c : Q) (d : cost_dict) (x : string) :
  In x (keys (add_cost key c d)) <-> x = key \/ In x (keys d).
Proof.
  induction d as [| [k v] d IH]; simpl.
  - intuition.
  - destruct (String.eqb_spec k key) as [-> | Hne]; simpl.
    + intuition.
    + unfold keys in IH. rewrite IH. intuition.
Qed.

Lemma NoDup_keys_add_cost (key : string) (c : Q) (d : cost_dict) :
  NoDup (keys d) -> NoDup (keys (add_cost key c d)).
Proof.
  induction d as [| [k v] d IH]; simpl; intros Hd.
  - constructor; [intros [] | constructor].
  - inversion Hd as [| ? ? Hk Hd']; subst.
    destruct (String.eqb_spec k key) as [-> | Hne]; simpl.
    + constructor; assumption.
    + constructor.
      * intros Hin. apply In_keys_add_cost in Hin.
        destruct Hin as [-> | Hin]; [apply Hne; reflexivity | exact (Hk Hin)].
      * apply IH. exact Hd'.
Qed.

Lemma nonneg_values_add_cost (key : string) (c : Q) (d : cost_dict) :
  nonneg c -> Forall nonneg (values d) -> Forall nonneg (values (add_cost key c d)).
Proof.
  unfold nonneg. intros Hc. induction d as [| [k v] d IH]; simpl; intros Hd.
  - constructor; [lra | constructor].
  - inversion Hd as [| ? ? Hv Hd']; subst. simpl in Hv.
    destruct (String.eqb k key); simpl; constructor; simpl.
    + lra.
    + exact Hd'.
    + exact Hv.
    + apply IH. exact Hd'.
Qed.

Lemma In_group_costs (groups : list Group) (g : Group) (c : Q) :
  In g groups -> group_cost g = Ok c -> In c (group_costs groups).
Proof.
  intros Hg Hc. unfold group_costs. apply in_flat_map.
  exists g. split; [exact Hg |]. rewrite Hc. left. reflexivity.
Qed.

Lemma groups_keep_shape (groups : list Group) (costs : list Q) :
  (forall c, In c (group_costs groups) -> In c costs) ->
  forall st st',
    for_each process_group groups st = Ok st' ->
    unique_keys (fst st)
    /\ (Forall nonneg costs -> nonneg_values (fst st)) ->
    unique_keys (fst st')
    /\ (Forall nonneg costs -> nonneg_values (fst st')).
Proof.
  intros Hsub st st' Hrun Hst.
  apply (for_each_invariant
           (fun s => unique_keys (fst s)
                     /\ (Forall nonneg costs -> nonneg_values (fst s)))
           process_group groups) with (s := st); [| exact Hst | exact Hrun].
  clear st st' Hrun Hst.
  intros [pd pending] g st' Hg ((Ue & Us & Ua) & Hnn) H.
  apply process_group_Ok in H. destruct H as (ks & c & _ & Hc & ->). simpl in *.
  split.
  - repeat split; apply NoDup_keys_add_cost; assumption.
  - intros Hall. destruct (Hnn Hall) as (Ne & Ns & Na).
    assert (Hcpos : nonneg c).
    { apply (proj1 (Forall_forall nonneg costs) Hall).
      apply Hsub. apply (In_group_costs groups g c Hg Hc). }
    repeat split; simpl; apply nonneg_values_add_cost; assumption.
Qed.

Lemma process_cost_data_shape (cost_data : CostData) (pd : Processed.t) :
  process_cost_data cost_data = Ok pd ->
  unique_keys pd
  /\ (Forall nonneg (row_costs cost_data) -> nonneg_values pd).
Proof.
  assert (Hinit : unique_keys initial_processed_data
                  /\ (Forall nonneg (row_costs cost_data)
                      -> nonneg_values initial_processed_data)).
  { split; [| intros _]; repeat split; simpl; constructor. }
  unfold process_cost_data.
  destruct (cost_data_is_empty cost_data).
  { intros H. injection H as <-. exact Hinit. }
  destruct (ResultsByTime cost_data) as [results |] eqn:Hres.
  2: { intros H. injection H as <-. exact Hinit. }
  apply (for_each_invariant
           (fun p => unique_keys p
                     /\ (Forall nonneg (row_costs cost_data) -> nonneg_values p))
           process_result results); [| exact Hinit].
  intros p r p' Hr Hp H.
  apply process_result_Ok in H.
  destruct H as (period & groups & pd1 & subtotal & _ & Hgs & Hrun & _ & He
                 & Hs & Ha & _).
  assert (H1 : unique_keys (fst (pd1, subtotal))
               /\ (Forall nonneg (row_costs cost_data)
                   -> nonneg_values (fst (pd1, subtotal)))).
  { apply (groups_keep_shape groups (row_costs cost_data)) with (st := (p, 0)).
    - intros c Hc. unfold row_costs. rewrite Hres. apply in_flat_map.
      exists r. split; [exact Hr |]. rewrite Hgs. exact Hc.
    - exact Hrun.
    - exact Hp. }
  unfold unique_keys, nonneg_values in *. simpl in H1.
  rewrite He, Hs, Ha. exact H1.
Qed.

(** C5, as the code has it: in each of the three mappings the keys are
    unique; the values are the sums of the rows' amounts, so they are
    non-negative when no row carries a negative amount. *)
Theorem breakdown_keys_unique_values_follow_rows (cost_data : CostData)
    (pd : Processed.t) :
  process_cost_data cost_data = Ok pd ->
  (NoDup (keys (Processed.by_environment pd))
   /\ NoDup (keys (Processed.by_service pd))
   /\ NoDup (keys (Processed.by_aws_service pd)))
  /\ (Forall (fun c => 0 <= c) (row_costs cost_data) ->
      Forall (fun v => 0 <= v) (values (Processed.by_environment pd))
      /\ Forall (fun v => 0 <= v) (values (Processed.by_service pd))
      /\ Forall (fun v => 0 <= v) (values (Processed.by_aws_service pd))).
Proof.
  intros H. exact (process_cost_data_shape cost_data pd H).
Qed.

Lemma breakdown_keys_unique_values_follow_rows_witness :
  process_cost_data three_days = Ok three_days_processed
  /\ Forall (fun c => 0 <= c) (row_costs three_days)
  /\ (NoDup (keys (Processed.by_environment three_days_processed))
      /\ NoDup (keys (Processed.by_service three_days_processed))
      /\ NoDup (keys (Processed.by_aws_service three_days_processed)))
  /\ Forall (fun v => 0 <= v)
       (values (Processed.by_environment three_days_processed))
  /\ Forall (fun v => 0 <= v)
       (values (Processed.by_service three_days_processed))
  /\ Forall (fun v => 0 <= v)
       (values (Processed.by_aws_service three_days_processed)).
Proof.
  assert (Hrows : Forall (fun c => 0 <= c) (row_costs three_days)).
  { vm_compute. repeat (constructor; [intros H; discriminate H |]).
    constructor. }
  split; [exact three_days_run |].
  split; [exact Hrows |].
  destruct (breakdown_keys_unique_values_follow_rows three_days
              three_days_processed three_days_run) as [Hkeys Hvalues].
  split; [exact Hkeys | exact (Hvalues Hrows)].
Defined.

(** C5 as stated fails: a row with a negative amount (a refund) leaves a
    negative value in all three mappings. *)
Lemma refund_gives_negative_breakdown_value :
  exists pd,
    process_cost_data refund_day = Ok pd
    /\ Processed.by_environment pd = [("prod", -10 # 1)]
    /\ Processed.by_service pd = [("api", -10 # 1)]
    /\ Processed.by_aws_service pd = [("Tax", -10 # 1)]
    /\ -10 # 1 < 0.
Proof.
  eexists. split; [vm_compute; reflexivity |].
  repeat split.
Qed.

(** ** Names of a row *)

Lemma assign_key_beyond_third (ks : list string) (n : nat)
    (names : string * string * string) :
  (3 <= n)%nat -> fold_left assign_key (enumerate_from n ks) names = names.
Proof.
  revert n names. induction ks as [| k ks IH]; intros n names Hn; simpl.
  - reflexivity.
  - assert (Hstep : assign_key names (n, k) = names).
    { destruct names as [[e s] a]. unfold assign_key.
      destruct n as [| [| [| n]]]; try lia. reflexivity. }
    rewrite Hstep. apply IH. lia.
Qed.

Lemma extract_keys_by_position (ks : list string) :
  extract_keys ks =
    (key_or_unknown ks 0, key_or_unknown ks 1, key_or_unknown ks 2).
Proof.
  unfold extract_keys, enumerate, key_or_unknown.
  destruct ks as [| k0 [| k1 [| k2 rest]]]; simpl.
  - reflexivity.
  - destruct k0; reflexivity.
  - destruct k0, k1; reflexivity.
  - rewrite assign_key_beyond_third by lia.
    destruct k0, k1, k2; reflexivity.
Qed.



(** ** Forecast *)

Lemma process_forecast_entry_Ok (acc : list Fc.period) (total : Q)
    (e : RawForecast.entry) (st' : list Fc.period * Q) :
  process_forecast_entry (acc, total) e = Ok st' ->
  exists p, normalizes e p
            /\ st' = ((acc ++ [p])%list, total + Fc.forecasted_cost p).
Proof.
  unfold process_forecast_entry. intros H.
  apply rbind_Ok in H. destruct H as (period & Hp & H).
  apply rbind_Ok in H. destruct H as (mean & Hm & H).
  apply rbind_Ok in H. destruct H as (q & Hq & H).
  apply rbind_Ok in H. destruct H as (ps & Hs & H).
  apply rbind_Ok in H. destruct H as (pe & He & H).
  injection H as <-.
  destruct (RawForecast.TimePeriod e) as [tp |] eqn:Etp; [| discriminate Hp].
  injection Hp as ->.
  destruct (RawForecast.MeanValue e) as [m |] eqn:Em; [| discriminate Hm].
  injection Hm as ->.
  destruct (Start period) as [s0 |] eqn:Es; [| discriminate Hs].
  injection Hs as ->.
  destruct (End_ period) as [e0 |] eqn:Ee; [| discriminate He].
  injection He as ->.
  exists {| Fc.period_start := ps; Fc.period_end := pe;
            Fc.forecasted_cost := q |}.
  split; [| reflexivity].
  exists period, mean. simpl. auto.
Qed.

Lemma process_forecast_entry_normalizes (acc : list Fc.period) (total : Q)
    (e : RawForecast.entry) (p : Fc.period) :
  normalizes e p ->
  process_forecast_entry (acc, total) e =
    Ok ((acc ++ [p])%list, total + Fc.forecasted_cost p).
Proof.
  intros (period & mean & Hp & Hs & He & Hm & Hq).
  unfold process_forecast_entry. rewrite Hp, Hm. simpl.
  rewrite Hq. simpl. rewrite Hs, He. simpl.
  destruct p; reflexivity.
Qed.

Lemma forecast_loop_Ok (results : list RawForecast.entry) :
  forall acc total st',
    for_each process_forecast_entry results (acc, total) = Ok st' ->
    exists periods,
      Forall2 normalizes results periods
      /\ st' = ((acc ++ periods)%list,
                fold_left Qplus (map Fc.forecasted_cost periods) total).
Proof.
  induction results as [| e results IH]; simpl; intros acc total st' H.
  - injection H as <-. exists []. rewrite app_nil_r. split; constructor.
  - apply rbind_Ok in H. destruct H as (st1 & He & Hrest).
    apply process_forecast_entry_Ok in He. destruct He as (p & Hp & ->).
    apply IH in Hrest. destruct Hrest as (periods & Hps & ->).
    exists (p :: periods). split.
    + constructor; assumption.
    + rewrite <- app_assoc. reflexivity.
Qed.

Lemma forecast_loop_total (results : list RawForecast.entry) :
  Forall well_formed_entry results ->
  forall acc total, exists st',
    for_each process_forecast_entry results (acc, total) = Ok st'.
Proof.
  induction 1 as [| e results (p & Hp) _ IH]; intros acc total;
    cbn [for_each].
  - eexists. reflexivity.
  - rewrite (process_forecast_entry_normalizes acc total e p Hp).
    cbn [rbind]. apply IH.
Qed.

(** A response with an entry that lacks its time period, start, end or mean
    value, or whose mean value is no decimal, is not normalized: the
    normalizer raises. *)
Lemma entry_not_well_formed_raises (forecast_data : RawForecast.t)
    (results : list RawForecast.entry) :
  RawForecast.ForecastResultsByTime forecast_data = Some results ->
  ~ Forall well_formed_entry results ->
  exists e, _process_forecast forecast_data = Raise e.
Proof.
  unfold _process_forecast. intros H Hbad.
  assert (Hne : forecast_data_is_empty forecast_data = false).
  { unfold forecast_data_is_empty. rewrite H. reflexivity. }
  rewrite Hne, H.
  destruct (for_each process_forecast_entry results ([], 0)) as [st' | e]
    eqn:Hrun.
  - exfalso. apply Hbad.
    apply forecast_loop_Ok in Hrun. destruct Hrun as (periods & Hps & _).
    clear - Hps. induction Hps as [| e p results periods Hp _ IH].
    + constructor.
    + constructor; [exists p; exact Hp | exact IH].
  - exists e. reflexivity.
Qed.

(** C6, as the code has it: an absent response (no [ForecastResultsByTime])
    gives the empty forecast object without an error; a response whose
    entries all carry a time period with start and end and a mean value that
    reads as a decimal is normalized entry by entry, the total being the sum
    of the means. *)
Theorem forecast_normalizer (forecast_data : RawForecast.t) :
  (RawForecast.ForecastResultsByTime forecast_data = None ->
   _process_forecast forecast_data = Ok None)
  /\ (forall results,
        RawForecast.ForecastResultsByTime forecast_data = Some results ->
        Forall well_formed_entry results ->
        exists fc,
          _process_forecast forecast_data = Ok (Some fc)
          /\ Forall2 normalizes results (Fc.forecast_by_period fc)
          /\ Fc.total_forecasted_cost fc =
               sum (map Fc.forecasted_cost (Fc.forecast_by_period fc))).
Proof.
  unfold _process_forecast. split.
  - intros H. rewrite H. destruct (forecast_data_is_empty forecast_data);
      reflexivity.
  - intros results H Hwf.
    assert (Hne : forecast_data_is_empty forecast_data = false).
    { unfold forecast_data_is_empty. rewrite H. reflexivity. }
    rewrite Hne, H.
    destruct (forecast_loop_total results Hwf [] 0) as (st' & Hrun).
    rewrite Hrun. simpl.
    apply forecast_loop_Ok in Hrun. destruct Hrun as (periods & Hps & ->).
    eexists. split; [reflexivity |]. simpl. split; [exact Hps | reflexivity].
Qed.

Lemma forecast_normalizer_witness :
  _process_forecast empty_forecast_data = Ok None
  /\ _process_forecast sample_forecast = Ok (Some sample_forecast_normalized)
  /\ Fc.total_forecasted_cost sample_forecast_normalized == 450.
Proof.
  split.
  - apply (proj1 (forecast_normalizer empty_forecast_data)). reflexivity.
  - split; [vm_compute; reflexivity | vm_compute; reflexivity].
Defined.

(** C6 as stated fails: a response whose entry lacks its mean value is not
    turned into an empty forecast; the normalizer raises [KeyError], and so
    does a mean value that is no number raise [ValueError]. *)
Lemma malformed_forecast_raises :
  _process_forecast forecast_without_mean = Raise (KeyError "MeanValue")
  /\ _process_forecast
       {| RawForecast.ForecastResultsByTime :=
            Some [{| RawForecast.TimePeriod :=
                       Some {| Start := Some "2026-11-04";
                               End_ := Some "2026-12-04" |};
                     RawForecast.MeanValue := Some "n/a" |}];
          RawForecast.Total := None |}
     = Raise (ValueError "could not convert string to float: n/a").
Proof.
  split; vm_compute; reflexivity.
Qed.

(** ** What a computation leaves alone *)

Section Frame.

Variable R : state -> state -> Prop.
Hypothesis R_refl : forall s, R s s.
Hypothesis R_trans : forall s1 s2 s3, R s1 s2 -> R s2 s3 -> R s1 s3.

Lemma respects_ret {A} (a : A) : respects R (ret a).
Proof. intros s. apply R_refl. Qed.

Lemma respects_raise {A} (e : exn) : respects R (@raise A e).
Proof. intros s. apply R_refl. Qed.

Lemma respects_lift {A} (r : res A) : respects R (lift r).
Proof. intros s. apply R_refl. Qed.

Lemma respects_bind {A B} (m : M A) (k : A -> M B) :
  respects R m -> (forall a, respects R (k a)) -> respects R (bind m k).
Proof.
  intros Hm Hk s. unfold bind. specialize (Hm s).
  destruct (m s) as [[a | e] s1]; simpl in *.
  - apply (R_trans s s1); [exact Hm | apply Hk].
  - exact Hm.
Qed.

Lemma respects_try_except {A} (body : M A) (handler : exn -> option (M A)) :
  respects R body ->
  (forall e h, handler e = Some h -> respects R h) ->
  respects R (try_except body handler).
Proof.
  intros Hb Hh s. unfold try_except. specialize (Hb s).
  destruct (body s) as [[a | e] s1]; simpl in *.
  - exact Hb.
  - destruct (handler e) as [h |] eqn:He; simpl.
    + apply (R_trans s s1); [exact Hb | apply (Hh e h He)].
    + exact Hb.
Qed.

Lemma respects_for_M {A} (xs : list A) (body : A -> M unit) :
  (forall x, respects R (body x)) -> respects R (for_M xs body).
Proof.
  intros Hbody. induction xs as [| x xs IH]; simpl.
  - apply respects_ret.
  - apply respects_bind; [apply Hbody | intros _; exact IH].
Qed.

Lemma respects_sys_exit {A} (code : Z) : respects R (@sys_exit A code).
Proof. apply respects_raise. Qed.

End Frame.

(** One step of a proof that a computation respects a relation, given the
    tactic [prim] for the primitive operations. *)
Ltac respects_step R_refl R_trans prim :=
  lazymatch goal with
  | |- respects _ (ret _) => apply respects_ret; exact R_refl
  | |- respects _ (raise _) => apply respects_raise; exact R_refl
  | |- respects _ (sys_exit _) => apply respects_sys_exit; exact R_refl
  | |- respects _ (lift _) => apply respects_lift; exact R_refl
  | |- respects _ (bind _ _) =>
      apply respects_bind; [exact R_trans | | intros ?]
  | |- respects _ (for_M _ _) =>
      apply respects_for_M; [exact R_refl | exact R_trans | intros ?]
  | |- respects _ (try_except _ _) =>
      apply respects_try_except;
      [exact R_trans
      |
      | let e := fresh "e" in
        let h := fresh "h" in
        let He := fresh "He" in
        intros e h He; destruct e; simpl in He;
        try discriminate He; injection He as <-]
  | |- respects _ (if ?b then _ else _) => destruct b
  | |- respects _ (match ?x with _ => _ end) => destruct x
  | |- respects _ (let _ := _ in _) => cbv zeta
  | |- _ => prim
  end.

Ltac respects_all R_refl R_trans prim :=
  repeat respects_step R_refl R_trans prim.

(** ** The renderers leave the report alone *)

Lemma same_report_refl (s : state) : same_report s s.
Proof. reflexivity. Qed.

Lemma same_report_trans (s1 s2 s3 : state) :
  same_report s1 s2 -> same_report s2 s3 -> same_report s1 s3.
Proof. unfold same_report. congruence. Qed.

Lemma same_report_print (line : string) : respects same_report (print line).
Proof. intros s. reflexivity. Qed.

Lemma same_report_now (w : world) : respects same_report (now w).
Proof. intros s. reflexivity. Qed.

Lemma same_report_log_call (c : api_call) : respects same_report (log_call c).
Proof. intros s. reflexivity. Qed.

Lemma same_report_get_report : respects same_report get_report.
Proof. intros s. unfold get_report. destruct (report_obj s); reflexivity. Qed.

Lemma same_report_write_file (w : world) (name : string) (c : file_content) :
  respects same_report (write_file w name c).
Proof.
  intros s. unfold write_file, bind, lift.
  destruct (open_w w name); reflexivity.
Qed.

Ltac same_report_prim :=
  first [ apply same_report_print
        | apply same_report_now
        | apply same_report_log_call
        | apply same_report_get_report
        | apply same_report_write_file ].

Ltac same_report_auto :=
  respects_all same_report_refl same_report_trans same_report_prim.

Lemma print_summary_report_same_report :
  respects same_report print_summary_report.
Proof. unfold print_summary_report. same_report_auto. Qed.

Lemma export_to_csv_same_report (w : world) (filename : string) :
  respects same_report (export_to_csv w filename).
Proof. unfold export_to_csv. same_report_auto. Qed.

Lemma export_to_json_same_report (w : world) (filename : string) :
  respects same_report (export_to_json w filename).
Proof. unfold export_to_json. same_report_auto. Qed.

Lemma generate_visualizations_same_report (w : world) (output_dir : string) :
  respects same_report (generate_visualizations w output_dir).
Proof.
  unfold generate_visualizations, save_chart. same_report_auto.
Qed.

(** C10: the console summary, the CSV exporter, the JSON exporter and the
    chart generator each leave the report they are given as it was, on every
    run, whether they return or raise. *)
Theorem renderers_leave_report_unchanged (w : world) (name : string)
    (s : state) :
  report_obj (snd (print_summary_report s)) = report_obj s
  /\ report_obj (snd (export_to_csv w name s)) = report_obj s
  /\ report_obj (snd (export_to_json w name s)) = report_obj s
  /\ report_obj (snd (generate_visualizations w name s)) = report_obj s.
Proof.
  repeat split.
  - apply print_summary_report_same_report.
  - apply export_to_csv_same_report.
  - apply export_to_json_same_report.
  - apply generate_visualizations_same_report.
Qed.

(** ** Report assembly *)

Lemma bind_Ok_inv {A B} (m : M A) (k : A -> M B) (s : state) (b : B)
    (s' : state) :
  bind m k s = (Ok b, s') ->
  exists a s1, m s = (Ok a, s1) /\ k a s1 = (Ok b, s').
Proof.
  unfold bind. destruct (m s) as [[a | e] s1]; intros H.
  - exists a, s1. split; [reflexivity | exact H].
  - discriminate H.
Qed.

Lemma lift_Ok_inv {A} (r : res A) (s : state) (a : A) (s' : state) :
  lift r s = (Ok a, s') -> r = Ok a /\ s' = s.
Proof.
  unfold lift. intros H. injection H as -> <-. split; reflexivity.
Qed.

Lemma div_days_Ok (x : Q) (days : Z) (q : Q) :
  div_days x days = Ok q -> days <> 0%Z /\ q = x / inject_Z days.
Proof.
  unfold div_days. destruct (Z.eqb_spec days 0) as [-> | Hne]; intros H.
  - discriminate H.
  - injection H as <-. split; [exact Hne | reflexivity].
Qed.

(** The division that yields the average is defined for every number of days
    but zero. *)
Lemma div_days_defined (x : Q) (days : Z) :
  days <> 0%Z -> div_days x days = Ok (x / inject_Z days).
Proof.
  unfold div_days. intros Hne.
  destruct (Z.eqb_spec days 0) as [-> | _]; [contradiction | reflexivity].
Qed.

(** The summary of an assembled report. *)
Lemma generate_report_summary (w : world) (self : CostReporter) (days : Z)
    (s : state) (r : Report) (s' : state) :
  generate_cost_allocation_report w self days s = (Ok r, s') ->
  days <> 0%Z
  /\ average_daily_cost (summary r) = total_cost (summary r) / inject_Z days
  /\ projected_monthly_cost (summary r) =
       total_cost (summary r) / inject_Z days * 30.
Proof.
  unfold generate_cost_allocation_report. intros H.
  repeat (apply bind_Ok_inv in H; destruct H as (? & ? & ? & H)).
  injection H as <- <-. simpl.
  repeat match goal with
         | Hd : lift (div_days _ _) _ = (Ok _, _) |- _ =>
             apply lift_Ok_inv in Hd; destruct Hd as [Hd _];
             apply div_days_Ok in Hd; destruct Hd as [? ->]
         end.
  repeat split; assumption.
Qed.

(** C4: in every report that is assembled, the average daily cost is the
    total cost divided by the days requested, the projected monthly cost is
    the average times thirty, and for a positive number of days the average
    times the days gives back the total. *)
Theorem summary_average_and_projection (w : world) (self : CostReporter)
    (days : Z) (s : state) (r : Report) (s' : state) :
  generate_cost_allocation_report w self days s = (Ok r, s') ->
  average_daily_cost (summary r) = total_cost (summary r) / inject_Z days
  /\ projected_monthly_cost (summary r) = average_daily_cost (summary r) * 30
  /\ ((0 < days)%Z ->
      average_daily_cost (summary r) * inject_Z days == total_cost (summary r)).
Proof.
  intros H. apply generate_report_summary in H.
  destruct H as (Hne & Havg & Hproj).
  rewrite Hproj, Havg. repeat split.
  intros Hpos. field.
  intros Hz. apply Hne.
  unfold Qeq in Hz. simpl in Hz. lia.
Qed.

Lemma three_days_report_run :
  fst (generate_cost_allocation_report (sample_world three_days)
         sample_reporter 3 initial_state)
  = Ok three_days_report.
Proof. vm_compute. reflexivity. Defined.

Lemma summary_average_and_projection_witness :
  fst (generate_cost_allocation_report (sample_world three_days)
         sample_reporter 3 initial_state)
  = Ok three_days_report
  /\ average_daily_cost (summary three_days_report)
     = total_cost (summary three_days_report) / inject_Z 3
  /\ projected_monthly_cost (summary three_days_report)
     = average_daily_cost (summary three_days_report) * 30
  /\ ((0 < 3)%Z ->
      average_daily_cost (summary three_days_report) * inject_Z 3
      == total_cost (summary three_days_report)).
Proof.
  split; [exact three_days_report_run |].
  apply (summary_average_and_projection (sample_world three_days)
           sample_reporter 3 initial_state three_days_report
           (snd (generate_cost_allocation_report (sample_world three_days)
                   sample_reporter 3 initial_state))).
  vm_compute. reflexivity.
Defined.

(** ** The days requested are not checked before the queries *)










(** Whatever the service answers, [get_cost_and_usage] has issued exactly
    its query. *)
Lemma get_cost_and_usage_calls (w : world) (self : CostReporter)
    (a b g : string) (s : state) :
  calls (snd (get_cost_and_usage w self a b g s))
  = (calls s ++ [Ce_get_cost_and_usage a b g (environment_tag_of self)])%list.
Proof.
  unfold get_cost_and_usage, try_except, bind, log_call, lift.
  simpl.
  destruct (ce_get_cost_and_usage w a b g (environment_tag_of self))
    as [cd | e].
  - reflexivity.
  - destruct e; reflexivity.
Qed.


(** With [days = 0] report generation returns no report: the division by
    the days raises, if nothing has raised before. *)
Lemma zero_days_yield_no_report (w : world) (self : CostReporter) (s : state) :
  exists e, fst (generate_cost_allocation_report w self 0 s) = Raise e.
Proof.
  destruct (generate_cost_allocation_report w self 0 s) as [[r | e] s']
    eqn:Hrun.
  - apply generate_report_summary in Hrun. destruct Hrun as (Hne & _).
    exfalso. apply Hne. reflexivity.
  - exists e. reflexivity.
Qed.




(** ** Percentages of the console summary *)












Lemma bind_print (line : string) {B} (k : unit -> M B) (s : state) :
  bind (print line) k s = k tt (snd (print line s)).
Proof. reflexivity. Qed.









(** ** Names of the output files *)







Lemma files_within_refl (args : Args) (s : state) : files_within args s s.
Proof. intros name H. left. exact H. Qed.

Lemma files_within_trans (args : Args) (s1 s2 s3 : state) :
  files_within args s1 s2 -> files_within args s2 s3 -> files_within args s1 s3.
Proof.
  intros H12 H23 name H. destruct (H23 name H) as [H2 | Hr].
  - apply H12. exact H2.
  - right. exact Hr.
Qed.

Lemma In_put_file (name : string) (c : file_content)
    (fs : list (string * file_content)) (x : string) :
  In x (map fst (put_file name c fs)) -> x = name \/ In x (map fst fs).
Proof.
  induction fs as [| [n c'] fs IH]; simpl.
  - intuition.
  - destruct (String.eqb n name); simpl; intuition.
Qed.

Lemma files_within_write_file (args : Args) (w : world) (name : string)
    (c : file_content) :
  run_file args name -> respects (files_within args) (write_file w name c).
Proof.
  intros Hname s x. unfold write_file, bind, lift.
  destruct (open_w w name); simpl.
  - intros H. apply In_put_file in H. destruct H as [-> | H].
    + right. exact Hname.
    + left. exact H.
  - intros H. left. exact H.
Qed.

Lemma files_within_same_files {A} (args : Args) (m : M A) :
  (forall s, files (snd (m s)) = files s) -> respects (files_within args) m.
Proof. intros H s name Hin. left. rewrite <- (H s). exact Hin. Qed.

Ltac files_within_prim :=
  first [ apply files_within_same_files; intros ?; reflexivity
        | apply files_within_same_files; intros s0; unfold get_report;
          destruct (report_obj s0); reflexivity
        | apply files_within_write_file ].

Ltac files_within_auto args :=
  respects_all (files_within_refl args) (files_within_trans args)
    files_within_prim.






(** ** The aggregator groups and sums *)

(** A property of the elements done so far and the state, kept by every
    successful turn of a loop, holds of all elements when the loop ends
    normally. *)
Lemma for_each_done_invariant {A S} (P : list A -> S -> Prop)
    (body : S -> A -> res S) (xs : list A) :
  (forall done x s s', P done s -> body s x = Ok s' -> P (done ++ [x])%list s') ->
  forall done s s',
    P done s -> for_each body xs s = Ok s' -> P (done ++ xs)%list s'.
Proof.
  intros Hstep. induction xs as [| x xs IH]; simpl; intros done s s' Hs Hrun.
  - injection Hrun as <-. rewrite app_nil_r. exact Hs.
  - apply rbind_Ok in Hrun. destruct Hrun as (s1 & Hx & Hrest).
    replace (done ++ x :: xs)%list with ((done ++ [x]) ++ xs)%list
      by (rewrite <- app_assoc; reflexivity).
    apply (IH (done ++ [x])%list s1 s'); [| exact Hrest].
    apply (Hstep done x s s1 Hs Hx).
Qed.

Lemma existsb_eqb_In (x : string) (l : list string) :
  existsb (String.eqb x) l = true <-> In x l.
Proof.
  rewrite existsb_exists. split.
  - intros (y & Hy & E). apply String.eqb_eq in E. subst. exact Hy.
  - intros H. exists x. split; [exact H | apply String.eqb_refl].
Qed.

Lemma keys_add_cost (key : string) (c : Q) (d : cost_dict) :
  keys (add_cost key c d) =
    if existsb (String.eqb key) (keys d) then keys d
    else (keys d ++ [key])%list.
Proof.
  unfold keys. induction d as [| [k v] d IH]; simpl.
  - reflexivity.
  - rewrite (String.eqb_sym key k).
    destruct (String.eqb k key); simpl.
    + reflexivity.
    + rewrite IH.
      destruct (existsb (String.eqb key) (map fst d)); reflexivity.
Qed.

Lemma amount_of_add_cost (key : string) (c : Q) (d : cost_dict)
    (name : string) :
  amount_of (add_cost key c d) name
  == amount_of d name + (if String.eqb key name then c else 0).
Proof.
  induction d as [| [k v] d IH]; simpl.
  - destruct (String.eqb key name); ring.
  - destruct (String.eqb_spec k key) as [-> | Hne]; simpl.
    + destruct (String.eqb key name); ring.
    + destruct (String.eqb_spec k name) as [-> | Hkn].
      * destruct (String.eqb_spec key name) as [-> | _];
          [contradiction Hne; reflexivity | ring].
      * exact IH.
Qed.

Lemma first_seen_snoc (xs : list string) (x : string) :
  first_seen (xs ++ [x]) =
    if existsb (String.eqb x) (first_seen xs) then first_seen xs
    else (first_seen xs ++ [x])%list.
Proof.
  unfold first_seen. rewrite fold_left_app. reflexivity.
Qed.

Lemma costs_under_snoc (i : nat) (name : string)
    (rows : list (list string * Q)) (ks : list string) (c : Q) :
  costs_under i name (rows ++ [(ks, c)]) =
    (costs_under i name rows
       ++ (if String.eqb (key_or_unknown ks i) name then [c] else []))%list.
Proof.
  unfold costs_under. rewrite filter_app, map_app. simpl.
  destruct (String.eqb (key_or_unknown ks i) name); reflexivity.
Qed.

Lemma tally_of_nil (i : nat) : tally_of i [] [].
Proof.
  split; [reflexivity | intros name; reflexivity].
Qed.

(** Adding a row's amount under the row's name keeps the tally. *)
Lemma tally_of_add_cost (i : nat) (rows : list (list string * Q))
    (d : cost_dict) (ks : list string) (c : Q) :
  tally_of i rows d ->
  tally_of i (rows ++ [(ks, c)]) (add_cost (key_or_unknown ks i) c d).
Proof.
  intros (Hkeys & Hamounts). split.
  - rewrite keys_add_cost. unfold names_at. rewrite map_app. simpl.
    rewrite first_seen_snoc. fold (names_at i rows). rewrite <- Hkeys.
    reflexivity.
  - intros name. rewrite amount_of_add_cost, costs_under_snoc, sum_app.
    rewrite (Hamounts name).
    destruct (String.eqb (key_or_unknown ks i) name).
    + rewrite sum_cons, sum_nil. ring.
    + rewrite sum_nil. ring.
Qed.

Lemma rows_of_groups_snoc (done : list Group) (g : Group) (ks : list string)
    (c : Q) :
  Keys g = Some ks -> group_cost g = Ok c ->
  rows_of_groups (done ++ [g]) = (rows_of_groups done ++ [(ks, c)])%list.
Proof.
  intros Hk Hc. unfold rows_of_groups. rewrite flat_map_app. simpl.
  unfold group_row. rewrite Hk, Hc. reflexivity.
Qed.

Lemma groups_keep_tallies (before : list (list string * Q))
    (groups : list Group) (st st' : Processed.t * Q) :
  tallies before (fst st) ->
  for_each process_group groups st = Ok st' ->
  tallies (before ++ rows_of_groups groups) (fst st').
Proof.
  intros Hst Hrun.
  apply (for_each_done_invariant
           (fun done s => tallies (before ++ rows_of_groups done) (fst s))
           process_group groups) with (done := []) (s := st);
    [| simpl; rewrite app_nil_r; exact Hst | exact Hrun].
  clear st st' Hst Hrun.
  intros done g [pd pending] st' (He & Hs & Ha) H.
  apply process_group_Ok in H. destruct H as (ks & c & Hk & Hc & ->).
  rewrite extract_keys_by_position. simpl in *.
  rewrite (rows_of_groups_snoc done g ks c Hk Hc), app_assoc.
  repeat split; apply tally_of_add_cost; assumption.
Qed.

Lemma rows_of_buckets_snoc (done : list ResultByTime) (r : ResultByTime)
    (groups : list Group) :
  Groups r = Some groups ->
  rows_of_buckets (done ++ [r])
  = (rows_of_buckets done ++ rows_of_groups groups)%list.
Proof.
  intros Hg. unfold rows_of_buckets. rewrite flat_map_app. simpl.
  rewrite Hg, app_nil_r. reflexivity.
Qed.

Lemma process_cost_data_tallies (cost_data : CostData) (pd : Processed.t) :
  process_cost_data cost_data = Ok pd -> tallies (rows_of cost_data) pd.
Proof.
  assert (Hinit : tallies [] initial_processed_data).
  { repeat split. }
  unfold process_cost_data, rows_of.
  destruct (ResultsByTime cost_data) as [results |] eqn:Hres.
  2: { destruct (cost_data_is_empty cost_data); intros H; injection H as <-;
       exact Hinit. }
  destruct (cost_data_is_empty cost_data) eqn:Hempty.
  { unfold cost_data_is_empty in Hempty. rewrite Hres in Hempty.
    discriminate Hempty. }
  intros Hrun.
  apply (for_each_done_invariant
           (fun done p => tallies (rows_of_buckets done) p)
           process_result results) with (done := []) (s := initial_processed_data);
    [| exact Hinit | exact Hrun].
  intros done r p p' Hp H.
  apply process_result_Ok in H.
  destruct H as (period & groups & pd1 & subtotal & _ & Hgs & Hloop & _ & He
                 & Hs & Ha & _).
  rewrite (rows_of_buckets_snoc done r groups Hgs).
  pose proof (groups_keep_tallies (rows_of_buckets done) groups (p, 0)
                (pd1, subtotal) Hp Hloop) as H1.
  unfold tallies in *. simpl in H1. rewrite He, Hs, Ha. exact H1.
Qed.

(** X1: each value of a breakdown mapping is the sum of the amounts of the
    rows that carry its key at the mapping's position (environment, service,
    provider service); a name no row carries counts zero. *)
Theorem breakdown_values_are_group_sums (cost_data : CostData)
    (pd : Processed.t) (name : string) :
  process_cost_data cost_data = Ok pd ->
  amount_of (Processed.by_environment pd) name
  == sum (costs_under 0 name (rows_of cost_data))
  /\ amount_of (Processed.by_service pd) name
     == sum (costs_under 1 name (rows_of cost_data))
  /\ amount_of (Processed.by_aws_service pd) name
     == sum (costs_under 2 name (rows_of cost_data)).
Proof.
  intros H. apply process_cost_data_tallies in H.
  destruct H as ((_ & He) & (_ & Hs) & (_ & Ha)).
  split; [apply He | split; [apply Hs | apply Ha]].
Qed.

Lemma breakdown_values_are_group_sums_witness :
  process_cost_data three_days = Ok three_days_processed
  /\ amount_of (Processed.by_environment three_days_processed) "prod"
     == sum (costs_under 0 "prod" (rows_of three_days))
  /\ amount_of (Processed.by_service three_days_processed) "prod"
     == sum (costs_under 1 "prod" (rows_of three_days))
  /\ amount_of (Processed.by_aws_service three_days_processed) "prod"
     == sum (costs_under 2 "prod" (rows_of three_days)).
Proof.
  split; [exact three_days_run |].
  exact (breakdown_values_are_group_sums three_days three_days_processed
           "prod" three_days_run).
Defined.

(** X2: the keys of each breakdown mapping are the distinct names of the
    rows at the mapping's position, in the order in which the rows first
    show them. *)
Theorem breakdown_keys_in_order_of_first_row (cost_data : CostData)
    (pd : Processed.t) :
  process_cost_data cost_data = Ok pd ->
  keys (Processed.by_environment pd)
  = first_seen (names_at 0 (rows_of cost_data))
  /\ keys (Processed.by_service pd)
     = first_seen (names_at 1 (rows_of cost_data))
  /\ keys (Processed.by_aws_service pd)
     = first_seen (names_at 2 (rows_of cost_data)).
Proof.
  intros H. apply process_cost_data_tallies in H.
  destruct H as ((He & _) & (Hs & _) & (Ha & _)).
  split; [exact He | split; [exact Hs | exact Ha]].
Qed.

Lemma breakdown_keys_in_order_of_first_row_witness :
  process_cost_data three_days = Ok three_days_processed
  /\ keys (Processed.by_environment three_days_processed) = ["prod"]
  /\ keys (Processed.by_service three_days_processed) = ["api"; "unknown"]
  /\ keys (Processed.by_aws_service three_days_processed)
     = ["Amazon EC2"; "Amazon S3"].
Proof.
  split; [exact three_days_run |].
  exact (breakdown_keys_in_order_of_first_row three_days three_days_processed
           three_days_run).
Defined.

(** ** The daily series *)

Lemma groups_keep_series (groups : list Group) (pd : Processed.t)
    (st' : Processed.t * Q) :
  for_each process_group groups (pd, 0) = Ok st' ->
  Processed.daily_costs (fst st') = Processed.daily_costs pd
  /\ snd st' = sum (map snd (rows_of_groups groups)).
Proof.
  intros Hrun.
  apply (for_each_done_invariant
           (fun done s =>
              Processed.daily_costs (fst s) = Processed.daily_costs pd
              /\ snd s = sum (map snd (rows_of_groups done)))
           process_group groups) with (done := []) (s := (pd, 0));
    [| split; reflexivity | exact Hrun].
  intros done g [p pending] s1 (Hd & Hp) H.
  apply process_group_Ok in H. destruct H as (ks & c & Hk & Hc & ->).
  simpl in *. split; [exact Hd |].
  rewrite (rows_of_groups_snoc done g ks c Hk Hc), map_app.
  unfold sum. rewrite fold_left_app. simpl. rewrite Hp. reflexivity.
Qed.

Lemma process_cost_data_series (cost_data : CostData)
    (results : list ResultByTime) (pd : Processed.t) :
  ResultsByTime cost_data = Some results ->
  process_cost_data cost_data = Ok pd ->
  Forall2 day_of_bucket results (Processed.daily_costs pd).
Proof.
  intros Hres. unfold process_cost_data. rewrite Hres.
  replace (cost_data_is_empty cost_data) with false
    by (unfold cost_data_is_empty; rewrite Hres; reflexivity).
  intros Hrun.
  apply (for_each_done_invariant
           (fun done p => Forall2 day_of_bucket done (Processed.daily_costs p))
           process_result results) with (done := [])
                                        (s := initial_processed_data);
    [| constructor | exact Hrun].
  intros done r p p' Hp H.
  apply process_result_Ok in H.
  destruct H as (period & groups & pd1 & subtotal & Hper & Hgs & Hloop & _ & _
                 & _ & _ & day & Hday & Hd).
  apply groups_keep_series in Hloop. simpl in Hloop.
  destruct Hloop as (Hsame & Hsub).
  rewrite Hd, Hsame. apply Forall2_app; [exact Hp |].
  constructor; [| constructor].
  exists period, groups. simpl. auto.
Qed.

(** X3: the daily series has one entry per time bucket, in the order of the
    buckets; each entry carries the bucket's start date and the sum of the
    amounts of the bucket's rows. *)
Theorem daily_series_follows_buckets (cost_data : CostData)
    (results : list ResultByTime) (pd : Processed.t) :
  ResultsByTime cost_data = Some results ->
  process_cost_data cost_data = Ok pd ->
  Forall2 day_of_bucket results (Processed.daily_costs pd).
Proof. apply process_cost_data_series. Qed.

Lemma daily_series_follows_buckets_witness :
  ResultsByTime refund_day
  = Some [bucket_of "2026-11-01" [group_of ["prod"; "api"; "Tax"] "-10"]]
  /\ Forall2 day_of_bucket
       [bucket_of "2026-11-01" [group_of ["prod"; "api"; "Tax"] "-10"]]
       [{| date := "2026-11-01"; cost := 0 + (-10 # 1) |}].
Proof.
  split; [reflexivity |].
  apply (daily_series_follows_buckets refund_day
           [bucket_of "2026-11-01" [group_of ["prod"; "api"; "Tax"] "-10"]]
           {| Processed.total_cost := 0 + (0 + (-10 # 1));
              Processed.by_environment := [("prod", 0 + (-10 # 1))];
              Processed.by_service := [("api", 0 + (-10 # 1))];
              Processed.by_aws_service := [("Tax", 0 + (-10 # 1))];
              Processed.daily_costs :=
                [{| date := "2026-11-01"; cost := 0 + (-10 # 1) |}];
              Processed.monthly_trend := [] |}).
  - reflexivity.
  - vm_compute. reflexivity.
Defined.

(** ** When the aggregator raises *)





(** ** Running the report assembly *)

Lemma bind_run {A B} (m : M A) (k : A -> M B) (s : state) (a : A)
    (s1 : state) :
  m s = (Ok a, s1) -> bind m k s = k a s1.
Proof. intros H. unfold bind. rewrite H. reflexivity. Qed.

Lemma bind_now (w : world) {B} (k : datetime -> M B) (s : state) :
  bind (now w) k s = k (clock w (ticks s)) (snd (now w s)).
Proof. reflexivity. Qed.

Lemma bind_lift_Ok {A B} (r : res A) (k : A -> M B) (s : state) (a : A) :
  r = Ok a -> bind (lift r) k s = k a s.
Proof. intros ->. reflexivity. Qed.

Lemma get_cost_and_usage_client_error (w : world) (self : CostReporter)
    (a b g msg : string) (s : state) :
  ce_get_cost_and_usage w a b g (environment_tag_of self)
  = Raise (ClientError msg) ->
  get_cost_and_usage w self a b g s
  = (Ok empty_cost_data,
     snd (print ("❌ Error retrieving cost data: " ++ msg)
            (snd (log_call
                    (Ce_get_cost_and_usage a b g (environment_tag_of self))
                    s)))).
Proof.
  intros H. unfold get_cost_and_usage, try_except, bind, lift. simpl.
  rewrite H. reflexivity.
Qed.

Lemma get_rightsizing_client_error (w : world) (msg : string) (s : state) :
  ce_get_rightsizing_recommendation w = Raise (ClientError msg) ->
  get_rightsizing_recommendations w s
  = (Ok empty_recommendation_data,
     snd (print ("⚠️  Rightsizing recommendations not available: " ++ msg)
            (snd (log_call Ce_get_rightsizing_recommendation s)))).
Proof.
  intros H. unfold get_rightsizing_recommendations, try_except, bind, lift.
  simpl. rewrite H. reflexivity.
Qed.

Lemma get_usage_forecast_client_error (w : world) (a b msg : string)
    (s : state) :
  ce_get_usage_forecast w a b = Raise (ClientError msg) ->
  get_usage_forecast w a b s
  = (Ok empty_forecast_data,
     snd (print ("⚠️  Usage forecast not available: " ++ msg)
            (snd (log_call (Ce_get_usage_forecast a b) s)))).
Proof.
  intros H. unfold get_usage_forecast, try_except, bind, lift. simpl.
  rewrite H. reflexivity.
Qed.

Lemma ticks_now (w : world) (s : state) : ticks (snd (now w s)) = S (ticks s).
Proof. reflexivity. Qed.

Lemma ticks_print (line : string) (s : state) :
  ticks (snd (print line s)) = ticks s.
Proof. reflexivity. Qed.

Lemma ticks_log_call (c : api_call) (s : state) :
  ticks (snd (log_call c s)) = ticks s.
Proof. reflexivity. Qed.

(** X5: when the cost query, the rightsizing query and the forecast query
    all fail with a [ClientError], report generation still returns a report
    (for a number of days other than zero and dates the calendar has): its
    totals are zero, its three mappings and its daily series empty, it has
    no recommendation and its forecast is the empty object. *)
Theorem report_degrades_when_queries_fail (w : world) (self : CostReporter)
    (days : Z) (s : state) (start later : datetime) :
  days <> 0%Z ->
  add_days (clock w (S (ticks s))) (- days) = Ok start ->
  add_days (clock w (S (S (S (ticks s))))) 30 = Ok later ->
  (forall a b g t, exists msg,
      ce_get_cost_and_usage w a b g t = Raise (ClientError msg)) ->
  (exists msg, ce_get_rightsizing_recommendation w = Raise (ClientError msg)) ->
  (forall a b, exists msg,
      ce_get_usage_forecast w a b = Raise (ClientError msg)) ->
  exists r s',
    generate_cost_allocation_report w self days s = (Ok r, s')
    /\ total_cost (summary r) = 0
    /\ average_daily_cost (summary r) == 0
    /\ projected_monthly_cost (summary r) == 0
    /\ cost_breakdown r
       = {| by_environment := []; by_service := []; by_aws_service := [] |}
    /\ daily_costs (trends r) = []
    /\ recommendations r = []
    /\ forecast r = None.
Proof.
  intros Hdays Hstart Hlater Hcost (mr & Hrec) Hfc.
  unfold generate_cost_allocation_report.
  rewrite bind_now, bind_now. rewrite !ticks_now.
  rewrite (bind_lift_Ok _ _ _ start Hstart), bind_print.
  match goal with
  | |- context [get_cost_and_usage w self ?a ?b ?g] =>
      destruct (Hcost a b g (environment_tag_of self)) as (mc & Hc);
      rewrite (bind_run _ _ _ _ _
                 (get_cost_and_usage_client_error w self a b g mc _ Hc))
  end.
  rewrite (bind_lift_Ok _ _ _ initial_processed_data) by reflexivity.
  rewrite (bind_run _ _ _ _ _ (get_rightsizing_client_error w mr _ Hrec)).
  rewrite bind_now, bind_now.
  rewrite ?ticks_now, ?ticks_print, ?ticks_log_call.
  rewrite (bind_lift_Ok _ _ _ later Hlater).
  match goal with
  | |- context [get_usage_forecast w ?a ?b] =>
      destruct (Hfc a b) as (mf & Hf);
      rewrite (bind_run _ _ _ _ _
                 (get_usage_forecast_client_error w a b mf _ Hf))
  end.
  rewrite bind_now.
  rewrite (bind_lift_Ok _ _ _ _ (div_days_defined _ days Hdays)).
  rewrite (bind_lift_Ok _ _ _ _ (div_days_defined _ days Hdays)).
  rewrite (bind_lift_Ok _ _ _ None) by reflexivity.
  eexists. eexists. split; [reflexivity |].
  cbn [summary total_cost average_daily_cost projected_monthly_cost
       cost_breakdown trends daily_costs recommendations forecast].
  repeat split; unfold Qdiv; simpl; ring.
Qed.

Lemma report_degrades_when_queries_fail_witness :
  (30 <> 0)%Z
  /\ add_days (clock refusing_world (S (ticks initial_state))) (- (30))
     = Ok {| ordinal := 739894; hour := 12; minute := 30; second := 15;
             microsecond := 0 |}
  /\ add_days (clock refusing_world (S (S (S (ticks initial_state))))) 30
     = Ok {| ordinal := 739954; hour := 12; minute := 30; second := 15;
             microsecond := 0 |}
  /\ exists r s',
       generate_cost_allocation_report refusing_world sample_reporter 30
         initial_state = (Ok r, s')
       /\ total_cost (summary r) = 0
       /\ average_daily_cost (summary r) == 0
       /\ projected_monthly_cost (summary r) == 0
       /\ cost_breakdown r
          = {| by_environment := []; by_service := []; by_aws_service := [] |}
       /\ daily_costs (trends r) = []
       /\ recommendations r = []
       /\ forecast r = None.
Proof.
  split; [discriminate |].
  split; [vm_compute; reflexivity |].
  split; [vm_compute; reflexivity |].
  apply (report_degrades_when_queries_fail refusing_world sample_reporter 30
           initial_state
           {| ordinal := 739894; hour := 12; minute := 30; second := 15;
              microsecond := 0 |}
           {| ordinal := 739954; hour := 12; minute := 30; second := 15;
              microsecond := 0 |}).
  - discriminate.
  - vm_compute. reflexivity.
  - vm_compute. reflexivity.
  - intros a b g t. exists "AccessDeniedException". reflexivity.
  - exists "AccessDeniedException". reflexivity.
  - intros a b. exists "AccessDeniedException". reflexivity.
Defined.

(** ** The queries of a report *)

Lemma get_rightsizing_calls (w : world) (s : state) :
  calls (snd (get_rightsizing_recommendations w s))
  = (calls s ++ [Ce_get_rightsizing_recommendation])%list.
Proof.
  unfold get_rightsizing_recommendations, try_except, bind, log_call, lift.
  simpl.
  destruct (ce_get_rightsizing_recommendation w) as [r | e];
    [reflexivity | destruct e; reflexivity].
Qed.

Lemma get_usage_forecast_calls (w : world) (a b : string) (s : state) :
  calls (snd (get_usage_forecast w a b s))
  = (calls s ++ [Ce_get_usage_forecast a b])%list.
Proof.
  unfold get_usage_forecast, try_except, bind, log_call, lift. simpl.
  destruct (ce_get_usage_forecast w a b) as [r | e];
    [reflexivity | destruct e; reflexivity].
Qed.

Lemma get_cost_and_usage_ticks (w : world) (self : CostReporter)
    (a b g : string) (s : state) :
  ticks (snd (get_cost_and_usage w self a b g s)) = ticks s.
Proof.
  unfold get_cost_and_usage, try_except, bind, log_call, lift. simpl.
  destruct (ce_get_cost_and_usage w a b g (environment_tag_of self))
    as [r | e]; [reflexivity | destruct e; reflexivity].
Qed.

Lemma get_rightsizing_ticks (w : world) (s : state) :
  ticks (snd (get_rightsizing_recommendations w s)) = ticks s.
Proof.
  unfold get_rightsizing_recommendations, try_except, bind, log_call, lift.
  simpl.
  destruct (ce_get_rightsizing_recommendation w) as [r | e];
    [reflexivity | destruct e; reflexivity].
Qed.

Lemma get_usage_forecast_ticks (w : world) (a b : string) (s : state) :
  ticks (snd (get_usage_forecast w a b s)) = ticks s.
Proof.
  unfold get_usage_forecast, try_except, bind, log_call, lift. simpl.
  destruct (ce_get_usage_forecast w a b) as [r | e];
    [reflexivity | destruct e; reflexivity].
Qed.

Lemma calls_now (w : world) (s : state) : calls (snd (now w s)) = calls s.
Proof. reflexivity. Qed.

Lemma calls_print (line : string) (s : state) :
  calls (snd (print line s)) = calls s.
Proof. reflexivity. Qed.

(** X6: a report generation that returns has queried each billing service
    once, in the order cost and usage, rightsizing, forecast: the cost query
    for the period the report states, with the environment tag of the
    reporter, the forecast query for the thirty days from today; and it has
    read the clock five times. *)
Theorem report_queries_each_service_once (w : world) (self : CostReporter)
    (days : Z) (s : state) (r : Report) (s' : state) :
  generate_cost_allocation_report w self days s = (Ok r, s') ->
  exists later,
    add_days (clock w (S (S (S (ticks s))))) 30 = Ok later
    /\ calls s' =
         (calls s
            ++ [Ce_get_cost_and_usage (period_start (metadata r))
                  (period_end (metadata r)) "DAILY" (environment_tag_of self);
                Ce_get_rightsizing_recommendation;
                Ce_get_usage_forecast
                  (strftime_ymd (clock w (S (S (ticks s)))))
                  (strftime_ymd later)])%list
    /\ ticks s' = (5 + ticks s)%nat.
Proof.
  unfold generate_cost_allocation_report. intros H.
  apply bind_Ok_inv in H. destruct H as (t1 & s1 & H1 & H).
  apply bind_Ok_inv in H. destruct H as (t2 & s2 & H2 & H).
  apply bind_Ok_inv in H. destruct H as (start & s3 & H3 & H).
  apply bind_Ok_inv in H. destruct H as (u4 & s4 & H4 & H).
  apply bind_Ok_inv in H. destruct H as (cd & s5 & H5 & H).
  apply bind_Ok_inv in H. destruct H as (pd & s6 & H6 & H).
  apply bind_Ok_inv in H. destruct H as (recs & s7 & H7 & H).
  apply bind_Ok_inv in H. destruct H as (t3 & s8 & H8 & H).
  apply bind_Ok_inv in H. destruct H as (t4 & s9 & H9 & H).
  apply bind_Ok_inv in H. destruct H as (later & s10 & H10 & H).
  apply bind_Ok_inv in H. destruct H as (fd & s11 & H11 & H).
  apply bind_Ok_inv in H. destruct H as (t5 & s12 & H12 & H).
  apply bind_Ok_inv in H. destruct H as (avg & s13 & H13 & H).
  apply bind_Ok_inv in H. destruct H as (avg' & s14 & H14 & H).
  apply bind_Ok_inv in H. destruct H as (fc & s15 & H15 & H).
  injection H as <- <-.
  apply lift_Ok_inv in H3, H6, H10, H13, H14, H15.
  destruct H3 as [H3 ->], H6 as [H6 ->], H10 as [H10 ->], H13 as [H13 ->],
    H14 as [H14 ->], H15 as [H15 ->].
  assert (E1 : s1 = snd (now w s) /\ t1 = clock w (ticks s)).
  { unfold now in H1. injection H1 as <- <-. split; reflexivity. }
  assert (E2 : s2 = snd (now w s1) /\ t2 = clock w (ticks s1)).
  { unfold now in H2. injection H2 as <- <-. split; reflexivity. }
  assert (E4 : s4 = snd (print
                            ("📈 Generating cost allocation report for "
                               ++ str_of_Z days ++ " days ("
                               ++ strftime_ymd start ++ " to "
                               ++ strftime_ymd t1 ++ ")") s2)).
  { rewrite H4. reflexivity. }
  assert (E5 : s5 = snd (get_cost_and_usage w self (strftime_ymd start)
                           (strftime_ymd t1) "DAILY" s4)).
  { rewrite H5. reflexivity. }
  assert (E7 : s7 = snd (get_rightsizing_recommendations w s5)).
  { rewrite H7. reflexivity. }
  assert (E8 : s8 = snd (now w s7) /\ t3 = clock w (ticks s7)).
  { unfold now in H8. injection H8 as <- <-. split; reflexivity. }
  assert (E9 : s9 = snd (now w s8) /\ t4 = clock w (ticks s8)).
  { unfold now in H9. injection H9 as <- <-. split; reflexivity. }
  assert (E11 : s11 = snd (get_usage_forecast w (strftime_ymd t3)
                             (strftime_ymd later) s9)).
  { rewrite H11. reflexivity. }
  assert (E12 : s12 = snd (now w s11)).
  { unfold now in H12. injection H12 as <- <-. reflexivity. }
  destruct E1 as [E1 T1], E2 as [E2 T2], E8 as [E8 T3], E9 as [E9 T4].
  assert (K7 : ticks s7 = S (S (ticks s))).
  { rewrite E7, get_rightsizing_ticks, E5, get_cost_and_usage_ticks, E4,
      ticks_print, E2, ticks_now, E1, ticks_now. reflexivity. }
  assert (K8 : ticks s8 = S (S (S (ticks s)))).
  { rewrite E8, ticks_now, K7. reflexivity. }
  exists later. split; [| split].
  - rewrite <- K8, <- T4. exact H10.
  - cbn [metadata period_start period_end].
    rewrite E12, calls_now, E11, get_usage_forecast_calls, E9, calls_now, E8,
      calls_now, E7, get_rightsizing_calls, E5, get_cost_and_usage_calls, E4,
      calls_print, E2, calls_now, E1, calls_now.
    rewrite T3, K7, T1. rewrite <- !app_assoc. reflexivity.
  - rewrite E12, ticks_now, E11, get_usage_forecast_ticks, E9, ticks_now, K8.
    reflexivity.
Qed.

Lemma report_queries_each_service_once_witness :
  fst (generate_cost_allocation_report (sample_world three_days)
         sample_reporter 3 initial_state)
  = Ok three_days_report
  /\ exists later,
       add_days (clock (sample_world three_days)
                   (S (S (S (ticks initial_state))))) 30 = Ok later
       /\ calls (snd (generate_cost_allocation_report (sample_world three_days)
                        sample_reporter 3 initial_state)) =
            (calls initial_state
               ++ [Ce_get_cost_and_usage "2026-11-01" "2026-11-04" "DAILY"
                     (Some "prod");
                   Ce_get_rightsizing_recommendation;
                   Ce_get_usage_forecast
                     (strftime_ymd
                        (clock (sample_world three_days)
                           (S (S (ticks initial_state)))))
                     (strftime_ymd later)])%list
       /\ ticks (snd (generate_cost_allocation_report
                        (sample_world three_days) sample_reporter 3
                        initial_state))
          = (5 + ticks initial_state)%nat.
Proof.
  split; [exact three_days_report_run |].
  apply (report_queries_each_service_once (sample_world three_days)
           sample_reporter 3 initial_state three_days_report).
  vm_compute. reflexivity.
Defined.

(** ** How [main] ends *)



Lemma same_files_refl (s : state) : same_files s s.
Proof. reflexivity. Qed.

Lemma same_files_trans (s1 s2 s3 : state) :
  same_files s1 s2 -> same_files s2 s3 -> same_files s1 s3.
Proof. unfold same_files. congruence. Qed.

Ltac same_files_prim :=
  first [ intros ?; reflexivity
        | intros s0; unfold get_report; destruct (report_obj s0); reflexivity ].

Lemma report_of_run_same_files (w : world) (args : Args) :
  respects same_files (report_of_run w args).
Proof.
  unfold report_of_run, CostReporter_init, generate_cost_allocation_report,
    get_cost_and_usage, get_rightsizing_recommendations, get_usage_forecast.
  respects_all same_files_refl same_files_trans same_files_prim.
Qed.

Lemma try_except_raise_run {A} (body : M A) (handler : exn -> option (M A))
    (s : state) (e : exn) (s1 : state) :
  body s = (Raise e, s1) ->
  try_except body handler s =
    match handler e with
    | Some h => h s1
    | None => (Raise e, s1)
    end.
Proof. intros H. unfold try_except. rewrite H. reflexivity. Qed.

(** A run that raises in its first two steps raises whatever follows. *)
Lemma bind_bind_raise {A B C} (m : M A) (k1 : A -> M B) (k2 : A -> B -> M C)
    (s : state) (e : exn) (s1 : state) :
  bind m k1 s = (Raise e, s1) ->
  bind m (fun a => bind (k1 a) (k2 a)) s = (Raise e, s1).
Proof.
  unfold bind. destruct (m s) as [[a | e0] s0].
  - destruct (k1 a s0) as [[b | e1] s2]; intros H.
    + discriminate H.
    + injection H as -> ->. reflexivity.
  - intros H. injection H as -> ->. reflexivity.
Qed.

(** X8: when making the reporter or generating the report raises, [main]
    leaves with a status (1, or the status of a [SystemExit] already under
    way, as after missing credentials) and has written no file. *)
Theorem failed_report_exits_without_output (w : world) (args : Args)
    (s : state) (e : exn) :
  fst (report_of_run w args s) = Raise e ->
  fst (main w args s) = Raise (SystemExit (exit_status_after e))
  /\ files (snd (main w args s)) = files s.
Proof.
  intros Hfail.
  pose proof (report_of_run_same_files w args s) as Hfiles.
  destruct (report_of_run w args s) as [r s1] eqn:Hrun.
  cbn [fst snd] in Hfail, Hfiles. subst r.
  unfold main.
  match goal with
  | |- context [try_except ?b ?h s] =>
      rewrite (try_except_raise_run b h s e s1)
  end.
  - destruct e; cbn [is_Exception exit_status_after]; split;
      solve [reflexivity | exact Hfiles].
  - apply (bind_bind_raise _
             (fun reporter =>
                generate_cost_allocation_report w reporter (args_days args))).
    exact Hrun.
Qed.

Lemma failed_report_exits_without_output_witness :
  fst (report_of_run (sample_world three_days) (sample_args 0) initial_state)
  = Raise ZeroDivisionError
  /\ fst (main (sample_world three_days) (sample_args 0) initial_state)
     = Raise (SystemExit 1)
  /\ files (snd (main (sample_world three_days) (sample_args 0)
                   initial_state))
     = files initial_state.
Proof.
  split; [vm_compute; reflexivity |].
  apply (failed_report_exits_without_output (sample_world three_days)
           (sample_args 0) initial_state ZeroDivisionError).
  vm_compute. reflexivity.
Defined.

Lemma bind_raise_run {A B} (m : M A) (k : A -> M B) (s : state) (e : exn)
    (s1 : state) :
  m s = (Raise e, s1) -> bind m k s = (Raise e, s1).
Proof. intros H. unfold bind. rewrite H. reflexivity. Qed.

Lemma init_fails_with_identity (w : world) (env : string) (s : state)
    (e : exn) :
  boto3_client w "ce" = Ok tt ->
  boto3_client w "cloudwatch" = Ok tt ->
  boto3_client w "sts" = Ok tt ->
  sts_get_caller_identity w = Raise e ->
  is_Exception e = true ->
  exists s1,
    CostReporter_init w env s = (Raise (SystemExit 1), s1)
    /\ calls s1 = (calls s ++ [Sts_get_caller_identity])%list
    /\ files s1 = files s.
Proof.
  intros Hce Hcw Hsts Hid He.
  unfold CostReporter_init, try_except.
  rewrite (bind_lift_Ok _ _ _ tt Hce), (bind_lift_Ok _ _ _ tt Hcw),
    (bind_lift_Ok _ _ _ tt Hsts).
  unfold bind at 1. unfold log_call at 1. cbv beta iota.
  unfold bind at 1. unfold lift at 1. rewrite Hid. cbv beta iota.
  destruct e; try discriminate He; cbn [is_Exception];
    unfold bind, print, sys_exit, raise; cbv beta iota;
    eexists; (split; [reflexivity |]); cbn [calls files]; split; reflexivity.
Qed.

(** X9: when the clients are made but the identity call raises an exception
    (missing credentials or any other), [main] exits with status 1 having
    made that one call: no billing query is issued and no file written. *)
Theorem identity_failure_is_fatal (w : world) (args : Args) (s : state)
    (e : exn) :
  boto3_client w "ce" = Ok tt ->
  boto3_client w "cloudwatch" = Ok tt ->
  boto3_client w "sts" = Ok tt ->
  sts_get_caller_identity w = Raise e ->
  is_Exception e = true ->
  fst (main w args s) = Raise (SystemExit 1)
  /\ calls (snd (main w args s)) = (calls s ++ [Sts_get_caller_identity])%list
  /\ files (snd (main w args s)) = files s.
Proof.
  intros Hce Hcw Hsts Hid He.
  destruct (init_fails_with_identity w
              (environment_name (args_environment args)) s e Hce Hcw Hsts Hid He)
    as (s1 & Hinit & Hcalls & Hfiles).
  unfold main.
  match goal with
  | |- context [try_except ?b ?h s] =>
      rewrite (try_except_raise_run b h s (SystemExit 1) s1)
  end.
  - cbn [is_Exception fst snd]. repeat split; assumption.
  - apply bind_raise_run. exact Hinit.
Qed.

Lemma identity_failure_is_fatal_witness :
  fst (main
         {| clock := fun _ => noon;
            boto3_client := fun _ => Ok tt;
            sts_get_caller_identity := Raise NoCredentialsError;
            ce_get_cost_and_usage := fun _ _ _ _ => Ok three_days;
            ce_get_rightsizing_recommendation := Ok empty_recommendation_data;
            ce_get_usage_forecast := fun _ _ => Ok sample_forecast;
            strptime_ymd := fun _ => Ok noon;
            plt_style_use := fun _ => Ok tt;
            plt_draw := fun _ => Ok tt;
            open_w := fun _ => Ok tt |}
         (sample_args 30) initial_state)
  = Raise (SystemExit 1).
Proof.
  apply (identity_failure_is_fatal _ (sample_args 30) initial_state
           NoCredentialsError); reflexivity.
Defined.

(** ** Percentages of a report *)




(** ** The tabular export *)

Lemma In_put_file_same (name : string) (c : file_content)
    (fs : list (string * file_content)) :
  In (name, c) (put_file name c fs).
Proof.
  induction fs as [| [n c'] fs IH]; simpl.
  - left. reflexivity.
  - destruct (String.eqb_spec n name) as [-> | _].
    + left. reflexivity.
    + right. exact IH.
Qed.

Lemma csv_rows_four_wide (r : Report) :
  Forall (fun row => List.length row = 4%nat) (csv_rows r).
Proof.
  unfold csv_rows.
  repeat first
    [ apply Forall_app; split
    | apply Forall_cons; [reflexivity |]
    | apply Forall_nil
    | apply Forall_map, Forall_forall; intros ? _; reflexivity ].
Qed.

Lemma csv_rows_length (r : Report) :
  List.length (csv_rows r) =
    (11 + List.length (by_environment (cost_breakdown r))
     + List.length (by_service (cost_breakdown r))
     + List.length (daily_costs (trends r)))%nat.
Proof.
  unfold csv_rows. rewrite !length_app, !length_map. simpl. lia.
Qed.

(** X11: when the file can be opened, the CSV exporter returns the file name
    and the file then holds a table that starts with the header row, has four
    cells in every row, and has eleven label, summary and blank rows beside
    one row per environment, per service and per day. *)
Theorem csv_export_is_a_table (w : world) (name : string) (s : state)
    (r : Report) :
  report_obj s = Some r ->
  open_w w name = Ok tt ->
  fst (export_to_csv w name s) = Ok name
  /\ exists rows,
       In (name, CsvFile (csv_header :: rows))
         (files (snd (export_to_csv w name s)))
       /\ Forall (fun row => List.length row = 4%nat) (csv_header :: rows)
       /\ List.length rows =
            (11 + List.length (by_environment (cost_breakdown r))
             + List.length (by_service (cost_breakdown r))
             + List.length (daily_costs (trends r)))%nat.
Proof.
  intros Hr Hopen.
  unfold export_to_csv, write_file, get_report, bind, lift.
  rewrite Hr, Hopen. cbn [fst snd files]. split; [reflexivity |].
  exists (csv_rows r). split; [apply In_put_file_same |]. split.
  - constructor; [reflexivity | apply csv_rows_four_wide].
  - apply csv_rows_length.
Qed.

Lemma csv_export_is_a_table_witness :
  report_obj (holding three_days_report) = Some three_days_report
  /\ open_w (sample_world three_days) "report.csv" = Ok tt
  /\ fst (export_to_csv (sample_world three_days) "report.csv"
            (holding three_days_report)) = Ok "report.csv".
Proof.
  split; [reflexivity |]. split; [reflexivity |].
  apply (csv_export_is_a_table (sample_world three_days) "report.csv"
           (holding three_days_report) three_days_report); reflexivity.
Defined.

(** ** The most expensive entries come first *)









(** ** Files a run writes, by its arguments *)

Lemma files_among_refl (allowed : string -> Prop) (s : state) :
  files_among allowed s s.
Proof. intros name H. left. exact H. Qed.

Lemma files_among_trans (allowed : string -> Prop) (s1 s2 s3 : state) :
  files_among allowed s1 s2 -> files_among allowed s2 s3 ->
  files_among allowed s1 s3.
Proof.
  intros H12 H23 name H. destruct (H23 name H) as [H2 | Hr].
  - apply H12. exact H2.
  - right. exact Hr.
Qed.

Lemma files_among_write_file (allowed : string -> Prop) (w : world)
    (name : string) (c : file_content) :
  allowed name -> respects (files_among allowed) (write_file w name c).
Proof.
  intros Hname s x. unfold write_file, bind, lift.
  destruct (open_w w name); simpl.
  - intros H. apply In_put_file in H. destruct H as [-> | H].
    + right. exact Hname.
    + left. exact H.
  - intros H. left. exact H.
Qed.

Lemma files_among_same_files {A} (allowed : string -> Prop) (m : M A) :
  (forall s, files (snd (m s)) = files s) -> respects (files_among allowed) m.
Proof. intros H s name Hin. left. rewrite <- (H s). exact Hin. Qed.

Ltac files_among_prim :=
  first [ apply files_among_same_files; intros ?; reflexivity
        | apply files_among_same_files; intros s0; unfold get_report;
          destruct (report_obj s0); reflexivity
        | apply files_among_write_file;
          solve [ left; split; [reflexivity | eexists; reflexivity]
                | right; left; split; [reflexivity | eexists; reflexivity]
                | right; right; split; [reflexivity | simpl; auto 6] ] ].

Lemma main_files_among (w : world) (args : Args) :
  respects (files_among (file_of_run args)) (main w args).
Proof.
  destruct args as [env days out fmt charts quiet].
  unfold main, CostReporter_init, generate_cost_allocation_report,
    get_cost_and_usage, get_rightsizing_recommendations, get_usage_forecast,
    print_summary_report, export_to_json, export_to_csv,
    generate_visualizations, save_chart.
  destruct fmt, charts, quiet;
    cbn [args_environment args_days args_output args_format args_charts
         args_quiet wants_json wants_csv];
    match goal with
    | |- respects (files_among ?P) _ =>
        respects_all (files_among_refl P) (files_among_trans P)
          files_among_prim
    end.
Qed.

(** X13: [main] writes a JSON file only when the format is json or both, a
    CSV file only when it is csv or both, and chart files only when charts
    are requested; it writes no file under any other name. *)
Theorem files_written_follow_arguments (w : world) (args : Args) (s : state)
    (name : string) :
  In name (map fst (files (snd (main w args s)))) ->
  In name (map fst (files s))
  \/ (wants_json (args_format args) = true
      /\ exists t, name = output_name args (strftime_stamp t) ".json")
  \/ (wants_csv (args_format args) = true
      /\ exists t, name = output_name args (strftime_stamp t) ".csv")
  \/ (args_charts args = true
      /\ In name
           ["./cost_by_environment.png"; "./cost_by_service.png";
            "./daily_cost_trend.png"; "./cost_by_aws_service.png"]).
Proof.
  intros H. exact (main_files_among w args s name H).
Qed.

Lemma files_written_follow_arguments_witness :
  In "cost_report_prod_20261104_123015.csv"
    (map fst
       (files (snd (main (sample_world three_days)
                      {| args_environment := Prod; args_days := 3;
                         args_output := "cost_report"; args_format := Csv;
                         args_charts := false; args_quiet := true |}
                      initial_state))))
  /\ map fst
       (files (snd (main (sample_world three_days)
                      {| args_environment := Prod; args_days := 3;
                         args_output := "cost_report"; args_format := Csv;
                         args_charts := false; args_quiet := true |}
                      initial_state)))
     = ["cost_report_prod_20261104_123015.csv"]
  /\ (In "cost_report_prod_20261104_123015.csv" (map fst (files initial_state))
      \/ (wants_json Csv = true
          /\ exists t,
               "cost_report_prod_20261104_123015.csv"
               = output_name
                   {| args_environment := Prod; args_days := 3;
                      args_output := "cost_report"; args_format := Csv;
                      args_charts := false; args_quiet := true |}
                   (strftime_stamp t) ".json")
      \/ (wants_csv Csv = true
          /\ exists t,
               "cost_report_prod_20261104_123015.csv"
               = output_name
                   {| args_environment := Prod; args_days := 3;
                      args_output := "cost_report"; args_format := Csv;
                      args_charts := false; args_quiet := true |}
                   (strftime_stamp t) ".csv")
      \/ (false = true
          /\ In "cost_report_prod_20261104_123015.csv"
               ["./cost_by_environment.png"; "./cost_by_service.png";
                "./daily_cost_trend.png"; "./cost_by_aws_service.png"])).
Proof.
  assert (Hin : In "cost_report_prod_20261104_123015.csv"
                  (map fst
                     (files (snd (main (sample_world three_days)
                                    {| args_environment := Prod;
                                       args_days := 3;
                                       args_output := "cost_report";
                                       args_format := Csv;
                                       args_charts := false;
                                       args_quiet := true |}
                                    initial_state))))).
  { vm_compute. left. reflexivity. }
  split; [exact Hin |]. split; [vm_compute; reflexivity |].
  exact (files_written_follow_arguments (sample_world three_days) _
           initial_state "cost_report_prod_20261104_123015.csv" Hin).
Defined.

(** ** Charts returned and charts written *)

Lemma In_put_file_name (name : string) (c : file_content)
    (fs : list (string * file_content)) :
  In name (map fst (put_file name c fs)).
Proof.
  apply (in_map fst _ (name, c)). apply In_put_file_same.
Qed.

Lemma put_file_keeps (name : string) (c : file_content)
    (fs : list (string * file_content)) (n : string) :
  In n (map fst fs) -> In n (map fst (put_file name c fs)).
Proof.
  induction fs as [| [k c'] fs IH]; simpl.
  - contradiction.
  - destruct (String.eqb k name); simpl; intuition.
Qed.

Lemma files_kept_refl (s : state) : files_kept s s.
Proof. intros n H. exact H. Qed.

Lemma files_kept_trans (s1 s2 s3 : state) :
  files_kept s1 s2 -> files_kept s2 s3 -> files_kept s1 s3.
Proof. intros H12 H23 n H. apply H23, H12, H. Qed.

Lemma save_chart_Ok (w : world) (filename : string) (c : chart)
    (s : state) (u : unit) (s' : state) :
  save_chart w filename c s = (Ok u, s') ->
  In filename (map fst (files s')) /\ files_kept s s'.
Proof.
  unfold save_chart, write_file, bind, lift.
  destruct (plt_draw w c) as [[] | e]; [| discriminate].
  destruct (open_w w filename) as [[] | e]; [| discriminate].
  intros H. injection H as _ <-. cbn [files]. split.
  - apply In_put_file_name.
  - intros n Hn. cbn [files]. apply put_file_keeps. exact Hn.
Qed.

(** One chart of the generator: skipped when its data is empty, otherwise
    drawn, saved and entered in the list. *)
Lemma chart_stage_inv (w : world) (empty : bool) (filename : string)
    (c : chart) (gf g : list string) (s s' : state) :
  (if empty then ret gf
   else save_chart w filename c ;; ret (gf ++ [filename])%list) s
  = (Ok g, s') ->
  g = (gf ++ (if empty then [] else [filename]))%list
  /\ files_kept s s'
  /\ (empty = false -> In filename (map fst (files s'))).
Proof.
  destruct empty.
  - unfold ret. intros H. injection H as <- <-.
    rewrite app_nil_r. repeat split; [apply files_kept_refl | discriminate].
  - intros H. apply bind_Ok_inv in H. destruct H as (u & s1 & Hsave & H).
    unfold ret in H. injection H as <- <-.
    apply save_chart_Ok in Hsave. destruct Hsave as (Hin & Hkept).
    repeat split; [exact Hkept | intros _; exact Hin].
Qed.

(** X14: when the chart generator returns, the names it returns are those
    of the charts whose data is not empty, in the order environment,
    service, daily trend, provider service, and a file of each name
    returned is there. *)
Theorem charts_returned_are_written (w : world) (output_dir : string)
    (s : state) (names : list string) (s' : state) :
  generate_visualizations w output_dir s = (Ok names, s') ->
  exists r,
    report_obj s = Some r
    /\ names = charts_of output_dir r
    /\ forall name, In name names -> In name (map fst (files s')).
Proof.
  unfold generate_visualizations. intros H.
  apply bind_Ok_inv in H. destruct H as (r & s0 & Hr & H).
  assert (Hs : report_obj s = Some r /\ s0 = s).
  { unfold get_report in Hr. destruct (report_obj s) as [r0 |];
      [injection Hr as <- <-; split; reflexivity | discriminate Hr]. }
  destruct Hs as (Hobj & ->).
  cbv zeta in H.
  apply bind_Ok_inv in H. destruct H as (u & s1 & Hstyle & H).
  apply lift_Ok_inv in Hstyle. destruct Hstyle as (_ & ->).
  apply bind_Ok_inv in H. destruct H as (g1 & s2 & H1 & H).
  apply chart_stage_inv in H1. destruct H1 as (-> & K1 & I1).
  apply bind_Ok_inv in H. destruct H as (g2 & s3 & H2 & H).
  apply chart_stage_inv in H2. destruct H2 as (-> & K2 & I2).
  apply bind_Ok_inv in H. destruct H as (g3 & s4 & H3 & H).
  assert (H3' : g3 =
                  (([] ++ (if is_nil (by_environment (cost_breakdown r))
                           then []
                           else [(output_dir ++ "/cost_by_environment.png")%string]))
                   ++ (if is_nil (by_service (cost_breakdown r)) then []
                       else [(output_dir ++ "/cost_by_service.png")%string])
                   ++ (if is_nil (daily_costs (trends r)) then []
                       else [(output_dir ++ "/daily_cost_trend.png")%string]))%list
                /\ files_kept s3 s4
                /\ (is_nil (daily_costs (trends r)) = false ->
                    In (output_dir ++ "/daily_cost_trend.png")%string
                      (map fst (files s4)))).
  { destruct (is_nil (daily_costs (trends r))).
    - unfold ret in H3. injection H3 as <- <-. rewrite !app_nil_r.
      rewrite <- app_assoc.
      repeat split; [apply files_kept_refl | discriminate].
    - apply bind_Ok_inv in H3. destruct H3 as (dates & s3' & Hd & H3).
      apply lift_Ok_inv in Hd. destruct Hd as (_ & ->).
      apply (chart_stage_inv w false) in H3.
      destruct H3 as (-> & K3 & I3). rewrite <- !app_assoc.
      repeat split; [exact K3 | exact I3]. }
  destruct H3' as (-> & K3 & I3).
  apply bind_Ok_inv in H. destruct H as (g4 & s5 & H4 & H).
  apply chart_stage_inv in H4. destruct H4 as (-> & K4 & I4).
  unfold ret in H. injection H as <- <-.
  exists r. split; [exact Hobj |]. split.
  - unfold charts_of. rewrite <- !app_assoc. reflexivity.
  - intros name Hin.
    repeat (apply in_app_or in Hin; destruct Hin as [Hin | Hin]);
      try contradiction;
      match type of Hin with
      | In _ (if ?b then _ else _) =>
          destruct b; [contradiction |]; destruct Hin as [<- | []]
      end;
      first [ apply I4; reflexivity
            | apply K4, I3; reflexivity
            | apply K4, K3, I2; reflexivity
            | apply K4, K3, K2, I1; reflexivity ].
Qed.

Lemma charts_returned_are_written_witness :
  generate_visualizations (sample_world three_days) "."
    (holding zero_cost_report)
  = (Ok ["./cost_by_environment.png"; "./cost_by_service.png";
         "./daily_cost_trend.png"; "./cost_by_aws_service.png"],
     snd (generate_visualizations (sample_world three_days) "."
            (holding zero_cost_report)))
  /\ exists r,
       report_obj (holding zero_cost_report) = Some r
       /\ ["./cost_by_environment.png"; "./cost_by_service.png";
           "./daily_cost_trend.png"; "./cost_by_aws_service.png"]
          = charts_of "." r
       /\ forall name,
            In name
              ["./cost_by_environment.png"; "./cost_by_service.png";
               "./daily_cost_trend.png"; "./cost_by_aws_service.png"] ->
            In name
              (map fst
                 (files (snd (generate_visualizations
                                (sample_world three_days) "."
                                (holding zero_cost_report))))).
Proof.
  assert (Hrun : generate_visualizations (sample_world three_days) "."
                   (holding zero_cost_report)
                 = (Ok ["./cost_by_environment.png"; "./cost_by_service.png";
                        "./daily_cost_trend.png"; "./cost_by_aws_service.png"],
                    snd (generate_visualizations (sample_world three_days) "."
                           (holding zero_cost_report)))).
  { vm_compute. reflexivity. }
  split; [exact Hrun |].
  exact (charts_returned_are_written (sample_world three_days) "."
           (holding zero_cost_report) _ _ Hrun).
Defined.

(** X15: with [days = 0] report generation returns no report, whatever the
    services answer: it raises, at the latest when the total is divided by
    the days. *)
Theorem zero_days_never_give_a_report (w : world) (self : CostReporter)
    (s : state) :
  (exists e, fst (generate_cost_allocation_report w self 0 s) = Raise e)
  /\ forall total, div_days total 0 = Raise ZeroDivisionError.
Proof.
  split; [| intros total; reflexivity].
  destruct (generate_cost_allocation_report w self 0 s) as [[r | e] s']
    eqn:Hrun.
  - apply generate_report_summary in Hrun. destruct Hrun as (Hne & _).
    exfalso. apply Hne. reflexivity.
  - exists e. reflexivity.
Qed.

(** ** Charts that fail *)

Section RaisesOnly.

Variable P : exn -> Prop.

Lemma raises_only_ret {A} (a : A) : raises_only P (ret a).
Proof. intros s e s' H. discriminate H. Qed.

Lemma raises_only_print (line : string) : raises_only P (print line).
Proof. intros s e s' H. discriminate H. Qed.

Lemma raises_only_lift {A} (r : res A) :
  (forall e, r = Raise e -> P e) -> raises_only P (lift r).
Proof.
  intros Hr s e s' H. unfold lift in H. injection H as H _.
  apply Hr. exact H.
Qed.

Lemma raises_only_bind {A B} (m : M A) (k : A -> M B) :
  raises_only P m -> (forall a, raises_only P (k a)) ->
  raises_only P (bind m k).
Proof.
  intros Hm Hk s e s'. unfold bind.
  destruct (m s) as [[a | e0] s1] eqn:E.
  - apply Hk.
  - intros H. injection H as <- _. apply (Hm s e0 s1 E).
Qed.

End RaisesOnly.

Lemma raises_only_get_report :
  raises_only (fun e => is_Exception e = true) get_report.
Proof.
  intros s e s'. unfold get_report. destruct (report_obj s).
  - discriminate.
  - intros H. injection H as <- _. reflexivity.
Qed.

Lemma raises_only_map_res {A B} (P : exn -> Prop) (f : A -> res B)
    (xs : list A) :
  (forall x e, f x = Raise e -> P e) ->
  forall e, map_res f xs = Raise e -> P e.
Proof.
  intros Hf. induction xs as [| x xs IH]; simpl; intros e H.
  - discriminate H.
  - destruct (f x) as [y | e0] eqn:E; simpl in H.
    + destruct (map_res f xs) as [ys | e1]; simpl in H.
      * discriminate H.
      * injection H as <-. apply IH. reflexivity.
    + injection H as <-. apply (Hf x e0 E).
Qed.

Lemma raises_only_write_file (w : world) (name : string) (c : file_content) :
  libraries_raise_exceptions w ->
  raises_only (fun e => is_Exception e = true) (write_file w name c).
Proof.
  intros (_ & _ & _ & Hopen). unfold write_file.
  apply raises_only_bind.
  - apply raises_only_lift. apply Hopen.
  - intros _ s e s' H. discriminate H.
Qed.

Lemma raises_only_save_chart (w : world) (name : string) (c : chart) :
  libraries_raise_exceptions w ->
  raises_only (fun e => is_Exception e = true) (save_chart w name c).
Proof.
  intros Hw. unfold save_chart. apply raises_only_bind.
  - apply raises_only_lift. apply Hw.
  - intros _. apply raises_only_write_file. exact Hw.
Qed.

(** The chart generator raises nothing but instances of [Exception]. *)
Lemma generate_visualizations_raises_exceptions (w : world)
    (output_dir : string) :
  libraries_raise_exceptions w ->
  raises_only (fun e => is_Exception e = true)
    (generate_visualizations w output_dir).
Proof.
  intros Hw. unfold generate_visualizations.
  repeat first
    [ apply raises_only_get_report
    | apply raises_only_ret
    | apply raises_only_print
    | apply raises_only_save_chart; exact Hw
    | apply raises_only_lift; first
        [ apply Hw
        | apply raises_only_map_res; intros ? ?; apply Hw ]
    | apply raises_only_bind; [| intros ?]
    | match goal with
      | |- raises_only _ (if ?b then _ else _) => destruct b
      | |- raises_only _ (let _ := _ in _) => cbv zeta
      end ].
Qed.

Lemma try_except_always_returns {A} (body : M A)
    (handler : exn -> option (M A)) :
  raises_only (fun e => is_Exception e = true) body ->
  (forall e, is_Exception e = true ->
             exists h, handler e = Some h /\ always_returns h) ->
  always_returns (try_except body handler).
Proof.
  intros Hbody Hh s. unfold try_except.
  destruct (body s) as [[a | e] s1] eqn:E.
  - exists a, s1. reflexivity.
  - destruct (Hh e (Hbody s e s1 E)) as (h & -> & Hret). apply Hret.
Qed.

Lemma try_except_bind_cong {A B} (m : M A) (k1 k2 : A -> M B)
    (handler : exn -> option (M B)) (s : state) :
  (forall a s1,
      fst (try_except (k1 a) handler s1) = fst (try_except (k2 a) handler s1)) ->
  fst (try_except (bind m k1) handler s)
  = fst (try_except (bind m k2) handler s).
Proof.
  intros H. unfold try_except at 1 2. unfold bind.
  destruct (m s) as [[a | e] s1].
  - apply H.
  - reflexivity.
Qed.

Lemma try_except_Ok_run {A} (body : M A) (handler : exn -> option (M A))
    (s : state) (a : A) (s1 : state) :
  body s = (Ok a, s1) -> try_except body handler s = (Ok a, s1).
Proof. intros H. unfold try_except. rewrite H. reflexivity. Qed.

Lemma always_returns_print_ret {A} (line : string) (a : A) :
  always_returns (print line ;; ret a).
Proof. intros s. eexists. eexists. reflexivity. Qed.

(** X16: charts that fail do not change how [main] ends: when the plotting
    library, the date parser and the opening of files raise nothing but
    instances of [Exception], a run with [--charts] ends as the same run
    without it. *)
Theorem charts_do_not_change_the_outcome (w : world) (args : Args)
    (s : state) :
  libraries_raise_exceptions w ->
  fst (main w (with_charts true args) s)
  = fst (main w (with_charts false args) s).
Proof.
  intros Hw. unfold main.
  cbn [with_charts args_environment args_days args_format args_charts
       args_quiet].
  do 7 (apply try_except_bind_cong; intros ? ?).
  match goal with
  | |- fst (try_except (bind (try_except ?body ?h) ?k) _ ?s0) = _ =>
      destruct (try_except_always_returns body h) with (s := s0)
        as (g & after & Hstep)
  end.
  - apply raises_only_bind.
    + apply generate_visualizations_raises_exceptions. exact Hw.
    + intros chart_files. apply raises_only_bind.
      * apply raises_only_print.
      * intros _. apply raises_only_ret.
  - intros e He. destruct e; try discriminate He; cbn [is_Exception];
      eexists; (split; [reflexivity |]); apply always_returns_print_ret.
  - erewrite try_except_Ok_run;
      [| rewrite (bind_run _ _ _ _ _ Hstep); reflexivity].
    erewrite try_except_Ok_run; [| reflexivity].
    reflexivity.
Qed.

Lemma charts_do_not_change_the_outcome_witness :
  libraries_raise_exceptions no_plots_world
  /\ fst (main no_plots_world (with_charts true (sample_args 3)) initial_state)
     = Ok tt
  /\ fst (main no_plots_world (with_charts true (sample_args 3)) initial_state)
     = fst (main no_plots_world (with_charts false (sample_args 3))
              initial_state).
Proof.
  assert (Hw : libraries_raise_exceptions no_plots_world).
  { repeat split; intros x e H; simpl in H; try discriminate H.
    injection H as <-. reflexivity. }
  split; [exact Hw |]. split; [vm_compute; reflexivity |].
  exact (charts_do_not_change_the_outcome no_plots_world (sample_args 3)
           initial_state Hw).
Defined.

(** ** When the console summary raises *)








(** ** The total and the rows *)




(** [first_seen] keeps every element once. *)
Lemma first_seen_keeps_each_once (xs : list string) :
  NoDup (first_seen xs) /\ forall x, In x (first_seen xs) <-> In x xs.
Proof.
  induction xs as [| x xs (Hnd & Hin)] using rev_ind.
  - split; [constructor | intros x; reflexivity].
  - rewrite first_seen_snoc.
    destruct (existsb (String.eqb x) (first_seen xs)) eqn:E.
    + apply existsb_eqb_In in E. split; [exact Hnd |].
      intros y. rewrite in_app_iff, Hin. simpl. split; [tauto |].
      intros [H | [<- | []]]; [exact H | apply Hin; exact E].
    + assert (Hx : ~ In x (first_seen xs)).
      { intros H. apply existsb_eqb_In in H. congruence. }
      split.
      * apply NoDup_app; [exact Hnd | constructor; [intros [] | constructor] |].
        intros y Hy [<- | []]. exact (Hx Hy).
      * intros y. rewrite !in_app_iff, Hin. reflexivity.
Qed.
